(** * Medkit: the vitals utilities and the DataTable state functions

    A shallow embedding of [src/utils/vitals.ts], of the validation effect
    and abnormal-value indicator of [VitalSignsInput.tsx], and of the
    virtual window, sort toggle, select-all and row-key functions of
    [DataTable.tsx], followed by the properties proved about them.

    JavaScript numbers are IEEE 754 binary64 values.  The vitals utilities
    compare, multiply, divide and round them, so they are embedded over
    [spec_float], the executable specification of binary floating point of
    the Standard Library, instantiated at precision 53 and maximal
    exponent 1024. *)

From Stdlib Require Import ZArith QArith Qabs Qround Qpower Lia Lqa Bool.
From Stdlib Require Import Floats.SpecFloat.
From stdpp Require Import base option list strings pretty gmap.

Local Open Scope Z_scope.

(** ** JavaScript numbers *)

Module JsNumber.

Definition number : Type := spec_float.

Definition prec : Z := 53.
Definition emax : Z := 1024.

Definition NaN : number := S754_nan.
Definition zero : number := S754_zero false.

(** A value that really is a binary64 number (canonical mantissa and
    exponent in range).  The operations below are defined on every
    [spec_float]; the theorems that quantify over all of [number] hold in
    particular for the valid ones. *)
Definition is_binary64 (x : number) : bool := valid_binary prec emax x.

Definition add : number -> number -> number := SFadd prec emax.
Definition sub : number -> number -> number := SFsub prec emax.
Definition mul : number -> number -> number := SFmul prec emax.
Definition div : number -> number -> number := SFdiv prec emax.

(** [x < y], [x <= y], [x > y] and [x === y] on numbers; every comparison
    with NaN is false, and [0 === -0]. *)
Definition lt (x y : number) : bool := SFltb x y.
Definition le (x y : number) : bool := SFleb x y.
Definition gt (x y : number) : bool := SFltb y x.
Definition strictEq (x y : number) : bool := SFeqb x y.

Definition isNaN (x : number) : bool :=
  match x with S754_nan => true | _ => false end.

(** [!x] for a number: 0, -0 and NaN are falsy. *)
Definition falsy (x : number) : bool :=
  match x with S754_zero _ | S754_nan => true | _ => false end.

(** The number denoted by an integer literal. *)
Definition ofZ (z : Z) : number := binary_normalize prec emax z 0 false.

(** The number denoted by the decimal literal [n / 10^k]: both [n] and
    [10^k] are exact for the literals of the program, and the division
    is correctly rounded, which is how a decimal literal is read. *)
Definition dec (n : Z) (k : nat) : number := div (ofZ n) (ofZ (10 ^ Z.of_nat k)).


(** [Number.prototype.toFixed(1)] lets [n] be an integer for which
    [n / 10 - x] is as close to zero as possible, the larger [n] when
    there are two, for the absolute value [x = m * 2^e]. *)
Definition nearest_tenths (m : positive) (e : Z) : Z :=
  match e with
  | Zneg p => (20 * Zpos m + 2 ^ Zpos p) / 2 ^ (Zpos p + 1)
  | _ => 10 * Zpos m * 2 ^ e
  end.

(** [1e21 <= m * 2^e]: from there on [toFixed] answers with the plain
    [ToString] of the number. *)
Definition atLeast1e21 (m : positive) (e : Z) : bool :=
  10 ^ 21 * 2 ^ Z.max (- e) 0 <=? Zpos m * 2 ^ Z.max e 0.

(** [Number(x.toFixed(1))].  NaN and the infinities print as their names
    and read back as themselves; so does a number of magnitude [1e21] or
    more.  Otherwise the sign is set aside, the digits of [n] are printed
    with a point before the last one, and the text is read back as the
    nearest number to [n / 10]; both zeros print as "0.0", and a negative
    number that rounds to no tenths as "-0.0". *)
Definition toFixed1 (x : number) : number :=
  match x with
  | S754_finite s m e =>
      if atLeast1e21 m e then x
      else match nearest_tenths m e with
           | Zpos n => div (S754_finite s n 0) (ofZ 10)
           | _ => S754_zero s
           end
  | S754_zero _ => S754_zero false
  | _ => x
  end.

(** Structural equality of two numbers, as a boolean. *)
Definition same (x y : number) : bool :=
  match x, y with
  | S754_zero a, S754_zero b => Bool.eqb a b
  | S754_infinity a, S754_infinity b => Bool.eqb a b
  | S754_nan, S754_nan => true
  | S754_finite a m e, S754_finite b n f =>
      Bool.eqb a b && Pos.eqb m n && Z.eqb e f
  | _, _ => false
  end.

End JsNumber.

(** ** [src/utils/vitals.ts] *)

Module Vitals.
Import JsNumber.

(** A numeric literal of the range table, [digits / 10^places], written
    without trailing zeros.  [value] is the number it denotes; [text] is
    what a template literal prints for that number, which for these
    short literals is the literal itself. *)
Record literal := { digits : Z; places : nat }.

Definition value (d : literal) : number := dec (digits d) (places d).

Definition text (d : literal) : string :=
  match places d with
  | O => pretty (digits d)
  | S _ =>
      let scale := 10 ^ Z.of_nat (places d) in
      let frac := pretty (digits d mod scale) in
      pretty (digits d / scale) +:+ "." +:+
      String.concat EmptyString (replicate (places d - String.length frac) "0") +:+ frac
  end.

Definition int (n : Z) : literal := {| digits := n; places := 0 |}.
Definition tenth (n : Z) : literal := {| digits := n; places := 1 |}.

Record RangeSpec := {
  min : literal;
  max : literal;
  normalMin : option literal;
  normalMax : option literal;
  unit : string
}.

Definition range (lo hi nlo nhi : literal) (u : string) : RangeSpec :=
  {| min := lo; max := hi; normalMin := Some nlo; normalMax := Some nhi; unit := u |}.

Definition bounds (lo hi : literal) (u : string) : RangeSpec :=
  {| min := lo; max := hi; normalMin := None; normalMax := None; unit := u |}.

Definition VITAL_RANGES_entries : list (string * RangeSpec) :=
  [ ("bloodPressureSystolic", range (int 70) (int 200) (int 90) (int 140) "mmHg");
    ("bloodPressureDiastolic", range (int 40) (int 130) (int 60) (int 90) "mmHg");
    ("heartRate", range (int 30) (int 250) (int 60) (int 100) "bpm");
    ("temperatureF", range (int 90) (int 110) (int 97) (tenth 995) "°F");
    ("temperatureC", range (tenth 322) (tenth 433) (tenth 361) (tenth 375) "°C");
    ("respiratoryRate", range (int 8) (int 40) (int 12) (int 20) "breaths/min");
    ("oxygenSaturation", range (int 70) (int 100) (int 95) (int 100) "%");
    ("weightLb", bounds (int 1) (int 1000) "lb");
    ("weightKg", bounds (tenth 5) (int 450) "kg");
    ("heightIn", bounds (int 10) (int 108) "in");
    ("heightCm", bounds (int 25) (int 275) "cm");
    ("painLevel", range (int 0) (int 10) (int 0) (int 3) EmptyString) ].

Definition VITAL_RANGES : gmap string RangeSpec :=
  list_to_map VITAL_RANGES_entries.

(** [VITAL_RANGES] is an object literal, so a property read that misses
    its own keys goes on to [Object.prototype]: these names answer with
    a function or an object, which is truthy and has neither [min], [max]
    nor [normalMin]. *)
Definition Object_prototype_keys : list string :=
  [ "constructor"; "hasOwnProperty"; "isPrototypeOf"; "propertyIsEnumerable";
    "toLocaleString"; "toString"; "valueOf"; "__proto__";
    "__defineGetter__"; "__defineSetter__"; "__lookupGetter__"; "__lookupSetter__" ].

Inductive property :=
| Own (r : RangeSpec)
| Inherited
| Undefined.

(** [VITAL_RANGES[rangeKey]] *)
Definition getRange (rangeKey : string) : property :=
  match VITAL_RANGES !! rangeKey with
  | Some r => Own r
  | None =>
      if bool_decide (rangeKey ∈ Object_prototype_keys) then Inherited else Undefined
  end.

Definition convertTemperature (v : number) (from : string) : number :=
  if bool_decide (from = "F")
  then toFixed1 (mul (sub v (ofZ 32)) (div (ofZ 5) (ofZ 9)))
  else toFixed1 (add (mul v (div (ofZ 9) (ofZ 5))) (ofZ 32)).

Definition convertWeight (v : number) (from : string) : number :=
  if bool_decide (from = "lb")
  then toFixed1 (mul v (dec 453592 6))
  else toFixed1 (div v (dec 453592 6)).

Definition convertHeight (v : number) (from : string) : number :=
  if bool_decide (from = "in")
  then toFixed1 (mul v (dec 254 2))
  else toFixed1 (div v (dec 254 2)).

Definition calculateBMI (weightKg heightCm : number) : option number :=
  if le weightKg (ofZ 0) || le heightCm (ofZ 0) then None
  else
    let heightM := div heightCm (ofZ 100) in
    Some (toFixed1 (div weightKg (mul heightM heightM))).

Definition getBMICategory (bmi : number) : string :=
  if lt bmi (dec 185 1) then "Underweight"
  else if lt bmi (ofZ 25) then "Normal"
  else if lt bmi (ofZ 30) then "Overweight"
  else "Obese".

(** The key under which a field's range is stored; the same lines open
    [isValueNormal] and [validateVitalValue]. *)
Definition rangeKeyOf (field : string) (u : option string) : string :=
  if bool_decide (field = "temperature")
  then (if bool_decide (u = Some "C") then "temperatureC" else "temperatureF")
  else if bool_decide (field = "weight")
  then (if bool_decide (u = Some "kg") then "weightKg" else "weightLb")
  else if bool_decide (field = "height")
  then (if bool_decide (u = Some "cm") then "heightCm" else "heightIn")
  else field.

Inductive Status := normal | low | high | unknown.

Definition isValueNormal (field : string) (v : number) (u : option string) : Status :=
  let rangeKey := rangeKeyOf field u in
  match getRange rangeKey with
  | Own r =>
      match normalMin r with
      | None => unknown
      | Some nmin =>
          if lt v (value nmin) then low
          else if match normalMax r with
                  | Some nmax => gt v (value nmax)
                  | None => false
                  end then high
          else normal
      end
  | Inherited => unknown
  | Undefined => unknown
  end.

Record ValidationError := { field : string; message : string }.

Definition rangeMessage (f : string) (r : RangeSpec) : string :=
  f +:+ " must be between " +:+ text (min r) +:+ " and " +:+ text (max r)
    +:+ " " +:+ unit r.

(** [v] is [None] for an [undefined] or [null] value. *)
Definition validateVitalValue (f : string) (v : option number) (u : option string)
  : option ValidationError :=
  match v with
  | None => None
  | Some x =>
      if isNaN x then None
      else
        let rangeKey := rangeKeyOf f u in
        match getRange rangeKey with
        | Undefined => None
        | Inherited => None
        | Own r =>
            if lt x (value (min r)) || gt x (value (max r))
            then Some {| field := f; message := rangeMessage f r |}
            else None
        end
  end.

End Vitals.

(** ** [src/components/VitalSignsInput/VitalSignsInput.tsx]: the state
  of the form, its validation effect and the abnormal-value flags *)

Module VitalSignsInput.
Import JsNumber Vitals.

Record VitalSigns := {
  bloodPressureSystolic : number;
  bloodPressureDiastolic : number;
  heartRate : number;
  temperature : number;
  temperatureUnit : string;
  respiratoryRate : number;
  oxygenSaturation : number;
  weight : number;
  weightUnit : string;
  height : number;
  heightUnit : string;
  painLevel : number
}.

Definition DEFAULT_VITALS : VitalSigns := {|
  bloodPressureSystolic := ofZ 0;
  bloodPressureDiastolic := ofZ 0;
  heartRate := ofZ 0;
  temperature := ofZ 0;
  temperatureUnit := "F";
  respiratoryRate := ofZ 0;
  oxygenSaturation := ofZ 0;
  weight := ofZ 0;
  weightUnit := "lb";
  height := ofZ 0;
  heightUnit := "in";
  painLevel := ofZ 0
|}.

(** One entry [{ field, value, unit }] of the validation pass. *)
Definition entry : Type := string * number * option string.

Definition fieldsToValidate (vitals : VitalSigns) : list entry :=
  [ ("bloodPressureSystolic", bloodPressureSystolic vitals, None);
    ("bloodPressureDiastolic", bloodPressureDiastolic vitals, None);
    ("heartRate", heartRate vitals, None);
    ("temperature", temperature vitals, Some (temperatureUnit vitals));
    ("respiratoryRate", respiratoryRate vitals, None);
    ("oxygenSaturation", oxygenSaturation vitals, None);
    ("weight", weight vitals, Some (weightUnit vitals));
    ("height", height vitals, Some (heightUnit vitals));
    ("painLevel", painLevel vitals, None) ].

(** The two accumulators of the effect: the array [validationErrors] and
    the object [newErrors]. *)
Definition accumulators : Type := list ValidationError * gmap string string.

(** The body of the [for] loop. *)
Definition validateEntry (acc : accumulators) (e : entry) : accumulators :=
  let '(f, v, u) := e in
  if strictEq v (ofZ 0) then acc
  else
    match validateVitalValue f (Some v) u with
    | Some err => (acc.1 ++ [err], <[f := message err]> (acc.2))
    | None => acc
    end.

Definition validateAll (es : list entry) : accumulators :=
  fold_left validateEntry es ([], ∅).

(** The validation effect run after a change of [vitals]: the new
    [errors] state, and the argument of [onValidationError] when the
    callback is given and called. *)
Definition runValidation (vitals : VitalSigns) (hasCallback : bool)
  : gmap string string * option (list ValidationError) :=
  let '(validationErrors, newErrors) := validateAll (fieldsToValidate vitals) in
  (newErrors,
   if hasCallback && negb (Nat.eqb (length validationErrors) 0)
   then Some validationErrors else None).

(** [vitals[field] as number].  The nine names below hold numbers; the
    three unit selectors hold strings and any other name is absent or
    inherited, and none of those has a range, so that both functions
    below answer for them as they do for an absent value. *)
Definition numberOf (vitals : VitalSigns) (f : string) : option number :=
  (list_to_map (M := gmap string number)
     ((λ e : entry, (e.1.1, e.1.2)) <$> fieldsToValidate vitals)) !! f.

Inductive Indicator := Low | High.

Definition getAbnormalIndicator (vitals : VitalSigns) (f : string) (u : option string)
  : option Indicator :=
  match numberOf vitals f with
  | None => None
  | Some v =>
      if falsy v || strictEq v (ofZ 0) then None
      else
        match isValueNormal f v u with
        | low => Some Low
        | high => Some High
        | _ => None
        end
  end.

Inductive InputClass := input | inputError | inputAbnormalLow | inputAbnormalHigh.

Definition getInputClassName (vitals : VitalSigns) (errors : gmap string string)
    (f : string) (u : option string) : InputClass :=
  match numberOf vitals f with
  | None => input
  | Some v =>
      if falsy v || strictEq v (ofZ 0) then input
      else if match errors !! f with
        | Some m => negb (String.eqb m EmptyString)
        | None => false
        end then inputError
      else
        match isValueNormal f v u with
        | low => inputAbnormalLow
        | high => inputAbnormalHigh
        | _ => input
        end
  end.

(** The three unit toggles.  Each computes the new unit and the converted
    value from the current [vitals] and stores both; a value that is not
    above zero is stored as 0. *)
Definition toggleTempUnit (vitals : VitalSigns) : VitalSigns :=
  let newUnit := if bool_decide (temperatureUnit vitals = "F") then "C" else "F" in
  let newTemp :=
    if gt (temperature vitals) (ofZ 0)
    then convertTemperature (temperature vitals) (temperatureUnit vitals)
    else ofZ 0 in
  {| bloodPressureSystolic := bloodPressureSystolic vitals;
     bloodPressureDiastolic := bloodPressureDiastolic vitals;
     heartRate := heartRate vitals;
     temperature := newTemp;
     temperatureUnit := newUnit;
     respiratoryRate := respiratoryRate vitals;
     oxygenSaturation := oxygenSaturation vitals;
     weight := weight vitals;
     weightUnit := weightUnit vitals;
     height := height vitals;
     heightUnit := heightUnit vitals;
     painLevel := painLevel vitals |}.

Definition toggleWeightUnit (vitals : VitalSigns) : VitalSigns :=
  let newUnit := if bool_decide (weightUnit vitals = "lb") then "kg" else "lb" in
  let newWeight :=
    if gt (weight vitals) (ofZ 0)
    then convertWeight (weight vitals) (weightUnit vitals)
    else ofZ 0 in
  {| bloodPressureSystolic := bloodPressureSystolic vitals;
     bloodPressureDiastolic := bloodPressureDiastolic vitals;
     heartRate := heartRate vitals;
     temperature := temperature vitals;
     temperatureUnit := temperatureUnit vitals;
     respiratoryRate := respiratoryRate vitals;
     oxygenSaturation := oxygenSaturation vitals;
     weight := newWeight;
     weightUnit := newUnit;
     height := height vitals;
     heightUnit := heightUnit vitals;
     painLevel := painLevel vitals |}.

Definition toggleHeightUnit (vitals : VitalSigns) : VitalSigns :=
  let newUnit := if bool_decide (heightUnit vitals = "in") then "cm" else "in" in
  let newHeight :=
    if gt (height vitals) (ofZ 0)
    then convertHeight (height vitals) (heightUnit vitals)
    else ofZ 0 in
  {| bloodPressureSystolic := bloodPressureSystolic vitals;
     bloodPressureDiastolic := bloodPressureDiastolic vitals;
     heartRate := heartRate vitals;
     temperature := temperature vitals;
     temperatureUnit := temperatureUnit vitals;
     respiratoryRate := respiratoryRate vitals;
     oxygenSaturation := oxygenSaturation vitals;
     weight := weight vitals;
     weightUnit := weightUnit vitals;
     height := newHeight;
     heightUnit := newUnit;
     painLevel := painLevel vitals |}.

(** The BMI shown under the measurements. *)
Definition weightKg (vitals : VitalSigns) : number :=
  if gt (weight vitals) (ofZ 0)
  then (if bool_decide (weightUnit vitals = "kg") then weight vitals
        else convertWeight (weight vitals) "lb")
  else ofZ 0.

Definition heightCm (vitals : VitalSigns) : number :=
  if gt (height vitals) (ofZ 0)
  then (if bool_decide (heightUnit vitals = "cm") then height vitals
        else convertHeight (height vitals) "in")
  else ofZ 0.

Definition bmi (vitals : VitalSigns) : option number :=
  if gt (weightKg vitals) (ofZ 0) && gt (heightCm vitals) (ofZ 0)
  then calculateBMI (weightKg vitals) (heightCm vitals)
  else None.

(** [bmi ? getBMICategory(bmi) : null]: no category for null, 0 and NaN. *)
Definition bmiCategory (vitals : VitalSigns) : option string :=
  match bmi vitals with
  | Some b => if falsy b then None else Some (getBMICategory b)
  | None => None
  end.

End VitalSignsInput.

(** ** [src/components/DataTable/DataTable.tsx] *)

Module DataTable.

Definition ROW_HEIGHT : Z := 41.

(** *** Row keys

    A row is a [Record<string, unknown>].  [Val] stands for the values a
    property can hold besides [undefined] and [null], and [String_] for
    what [String(v)] gives for them. *)
Inductive unknown (Val : Type) :=
| undefined
| null
| defined (v : Val).
Arguments undefined {Val}.
Arguments null {Val}.
Arguments defined {Val} v.

Abbreviation Row Val := (gmap string (unknown Val)).

(** The [rowKey] prop: a property name or a function of the row. *)
Inductive RowKey (Val : Type) :=
| keyName (k : string)
| keyFunction (f : Row Val -> string).
Arguments keyName {Val} k.
Arguments keyFunction {Val} f.

Section Rows.
Context {Val : Type} (String_ : Val -> string).

(** [row[k]] *)
Definition get (row : Row Val) (k : string) : unknown Val :=
  default undefined (row !! k).

(** [String(x)] *)
Definition toString (x : unknown Val) : string :=
  match x with
  | undefined => "undefined"
  | null => "null"
  | defined v => String_ v
  end.

(** [!rowKey]: no prop, or the empty property name. *)
Definition notConfigured (rowKey : option (RowKey Val)) : bool :=
  match rowKey with
  | None => true
  | Some (keyName k) => bool_decide (k = EmptyString)
  | Some (keyFunction _) => false
  end.

Definition getRowKey (row : Row Val) (index : nat) (rowKey : option (RowKey Val))
  : string :=
  if notConfigured rowKey then
    match get row "id" with
    | undefined | null => pretty index
    | defined v => String_ v
    end
  else
    match rowKey with
    | Some (keyFunction f) => f row
    | Some (keyName k) => toString (get row k)
    | None => EmptyString
    end.

(** *** Selection *)

Inductive Mode := single | multiple.

Record Selection := { selected : list string; mode : Mode }.

(** [selected.includes(key)] *)
Definition includes (l : list string) (key : string) : bool :=
  bool_decide (key ∈ l).

(** [data.every((row, i) => p(row, i))], counting from [i]. *)
Fixpoint everyFrom {A} (p : A -> nat -> bool) (i : nat) (data : list A) : bool :=
  match data with
  | [] => true
  | row :: rest => p row i && everyFrom p (S i) rest
  end.

Definition isAllSelected (selection : option Selection) (data : list (Row Val))
    (rowKey : option (RowKey Val)) : bool :=
  match selection with
  | None => false
  | Some sel =>
      if Nat.eqb (length data) 0 then false
      else everyFrom (λ row i, includes (selected sel) (getRowKey row i rowKey)) 0 data
  end.

(** The keys of all rows, [data.map((row, i) => getRowKey(row, i, rowKey))]. *)
Definition rowKeys (data : list (Row Val)) (rowKey : option (RowKey Val)) : list string :=
  imap (λ i row, getRowKey row i rowKey) data.

(** The argument given to [onSelectionChange]; [None] when the handler
    returns without calling it. *)
Definition handleSelectAll (selection : option Selection) (data : list (Row Val))
    (rowKey : option (RowKey Val)) : option (list string) :=
  match selection with
  | None => None
  | Some _ =>
      if isAllSelected selection data rowKey then Some []
      else Some (rowKeys data rowKey)
  end.

Definition handleSelectRow (selection : option Selection) (row : Row Val) (index : nat)
    (rowKey : option (RowKey Val)) : option (list string) :=
  match selection with
  | None => None
  | Some sel =>
      let key := getRowKey row index rowKey in
      match mode sel with
      | single => Some (if includes (selected sel) key then [] else [key])
      | multiple =>
          Some (if includes (selected sel) key
                then filter (λ id, id ≠ key) (selected sel)
                else selected sel ++ [key])
      end
  end.

End Rows.

(** *** Sorting *)

Inductive Direction := asc | desc.

Record Sorting := { column : string; direction : Direction }.

(** The part of a [ColumnDef] the handlers read. *)
Record ColumnDef := { id : string; sortable : option bool }.

(** The arguments given to [onSort]; [None] when the handler returns
    without calling it. *)
Definition handleSort (sorting : option Sorting) (col : ColumnDef)
  : option (string * Direction) :=
  match sorting with
  | None => None
  | Some s =>
      if negb (default false (sortable col)) then None
      else
        let newDir :=
          if bool_decide (column s = id col)
             && match direction s with asc => true | desc => false end
          then desc else asc in
        Some (id col, newDir)
  end.

(** *** The virtual window

    [scrollTop] and [containerHeight] are pixel measures read from the
    scroll container; they are taken as exact rationals, and the
    quotients by the row height are floored and ceiled exactly.  The
    indices are integers from there on. *)
Record VirtualState := {
  totalHeight : Z;
  startIndex : Z;
  endIndex : Z;
  offsetY : Z
}.

Definition shouldVirtualize (dataLength : nat) (virtualizeThreshold : Z) (loading : bool)
  : bool :=
  (virtualizeThreshold <? Z.of_nat dataLength) && negb loading.

Definition virtualState (dataLength : nat) (virtualizeThreshold : Z) (loading : bool)
    (scrollTop containerHeight : Q) : option VirtualState :=
  if negb (shouldVirtualize dataLength virtualizeThreshold loading) then None
  else
    let totalHeight := Z.of_nat dataLength * ROW_HEIGHT in
    let startIndex := Z.max 0 (Qfloor (scrollTop / inject_Z ROW_HEIGHT) - 5) in
    let visibleCount := Qceiling (containerHeight / inject_Z ROW_HEIGHT) + 10 in
    let endIndex := Z.min (Z.of_nat dataLength) (startIndex + visibleCount) in
    Some {| totalHeight := totalHeight;
            startIndex := startIndex;
            endIndex := endIndex;
            offsetY := startIndex * ROW_HEIGHT |}.

(** *** The rendered rows

    [Array.prototype.slice(start, end)] for integer arguments: a negative
    index counts from the end, both are clamped to the array. *)
Definition relativeIndex (len i : Z) : Z :=
  if i <? 0 then Z.max (len + i) 0 else Z.min i len.

Definition slice {A} (l : list A) (first last : Z) : list A :=
  let len := Z.of_nat (length l) in
  let k := relativeIndex len first in
  let final := relativeIndex len last in
  take (Z.to_nat (final - k)) (drop (Z.to_nat k) l).

Definition visibleRows {A} (w : option VirtualState) (data : list A) : list A :=
  match w with
  | Some v => slice data (startIndex v) (endIndex v)
  | None => data
  end.

(** The heights of the two spacer rows of [renderBody], 0 when the spacer
    is not rendered. *)
Definition topSpacer (v : VirtualState) : Z :=
  if 0 <? offsetY v then offsetY v else 0.

Definition bottomSpacer (dataLength : nat) (v : VirtualState) : Z :=
  if endIndex v <? Z.of_nat dataLength
  then (Z.of_nat dataLength - endIndex v) * ROW_HEIGHT
  else 0.

Section Rendering.
Context {Val : Type} (String_ : Val -> string).

(** The keys of the rows of the table body, in order: [renderRow] is given
    [startIndex + i] for the i-th visible row. *)
Definition renderedKeys (w : option VirtualState) (data : list (Row Val))
    (rowKey : option (RowKey Val)) : list string :=
  match w with
  | Some v =>
      imap (fun i row => getRowKey String_ row (Z.to_nat (startIndex v + Z.of_nat i)) rowKey)
           (visibleRows w data)
  | None => imap (fun i row => getRowKey String_ row i rowKey) data
  end.

End Rendering.

(** *** Pagination

    [page], [pageSize] and [total] are counts and are taken as integers;
    [Math.ceil(total / pageSize)] is the exact ceiling of the quotient.  A
    page size of 0, for which the quotient is not finite, is left out of
    every statement. *)
Record Pagination := { page : Z; pageSize : Z; total : Z }.

Definition totalPages (pagination : option Pagination) : Z :=
  match pagination with
  | Some p => Qceiling (inject_Z (total p) / inject_Z (pageSize p))
  | None => 0
  end.

Definition startItem (p : Pagination) : Z := (page p - 1) * pageSize p + 1.

Definition endItem (p : Pagination) : Z := Z.min (page p * pageSize p) (total p).

Inductive NavButton := firstPage | previousPage | nextPage | lastPage.

(** The [disabled] attribute of a navigation button. *)
Definition navDisabled (p : Pagination) (b : NavButton) : bool :=
  match b with
  | firstPage | previousPage => page p <=? 1
  | nextPage | lastPage => totalPages (Some p) <=? page p
  end.

(** The page a navigation button asks for with [onPageChange]. *)
Definition navTarget (p : Pagination) (b : NavButton) : Z :=
  match b with
  | firstPage => 1
  | previousPage => page p - 1
  | nextPage => page p + 1
  | lastPage => totalPages (Some p)
  end.

(** A click: a disabled button does nothing. *)
Definition clickNav (p : Pagination) (b : NavButton) : option Z :=
  if navDisabled p b then None else Some (navTarget p b).

End DataTable.

(** ** [src/components/MedicationSearch/MedicationSearch.tsx]: the
    displayed items and the keyboard handler *)

Module MedicationSearch.
Import DataTable.

Section Search.
Context {Medication : Type}.

(** The props the handler reads. *)
Record Props := { recentSelections : list Medication; maxResults : Z }.

(** The state of the component, without its refs and its loading flag. *)
Record State := {
  query : string;
  results : list Medication;
  isOpen : bool;
  highlightedIndex : Z
}.

Definition showRecent (props : Props) (st : State) : bool :=
  Nat.eqb (String.length (query st)) 0
  && negb (Nat.eqb (length (recentSelections props)) 0).

Definition displayItems (props : Props) (st : State) : list Medication :=
  if showRecent props st then recentSelections props
  else slice (results st) 0 (maxResults props).

Inductive Key := ArrowDown | ArrowUp | Enter | Escape | OtherKey.

(** [handleSelect]: the state after a selection. *)
Definition selected (st : State) : State :=
  {| query := EmptyString; results := []; isOpen := false; highlightedIndex := -1 |}.

(** [displayItems[i]] for an integer [i]. *)
Definition itemAt (items : list Medication) (i : Z) : option Medication :=
  if i <? 0 then None else items !! Z.to_nat i.

(** [handleKeyDown]: the new state and the medication given to [onSelect],
    if one is. *)
Definition handleKeyDown (props : Props) (st : State) (key : Key)
  : State * option Medication :=
  let count := Z.of_nat (length (displayItems props st)) in
  if negb (isOpen st) then
    match key with
    | ArrowDown | ArrowUp =>
        ({| query := query st; results := results st; isOpen := true;
            highlightedIndex := highlightedIndex st |}, None)
    | _ => (st, None)
    end
  else
    match key with
    | ArrowDown =>
        ({| query := query st; results := results st; isOpen := isOpen st;
            highlightedIndex :=
              if highlightedIndex st <? count - 1 then highlightedIndex st + 1 else 0 |},
         None)
    | ArrowUp =>
        ({| query := query st; results := results st; isOpen := isOpen st;
            highlightedIndex :=
              if 0 <? highlightedIndex st then highlightedIndex st - 1 else count - 1 |},
         None)
    | Enter =>
        if (0 <=? highlightedIndex st) && (highlightedIndex st <? count) then
          match itemAt (displayItems props st) (highlightedIndex st) with
          | Some med => (selected st, Some med)
          | None => (st, None)
          end
        else (st, None)
    | Escape =>
        ({| query := query st; results := results st; isOpen := false;
            highlightedIndex := -1 |}, None)
    | OtherKey => (st, None)
    end.

End Search.

End MedicationSearch.

(** ** [src/components/TimeSlotPicker/TimeSlotPicker.tsx]: the sections
    of the day *)

Module TimeSlotPicker.

Section Slots.
(** [hourOf slot] stands for [getHourInTimezone(slot.startTime, timezone)],
    the hour the host prints for the slot in the time zone of the picker,
    read with [parseInt]; [None] is NaN. *)
Context {TimeSlot : Type} (hourOf : TimeSlot -> option Z).

(** [hour < bound], false for NaN. *)
Definition hourBelow (hour : option Z) (bound : Z) : bool :=
  match hour with
  | Some h => h <? bound
  | None => false
  end.

Record SlotSection := { label : string; slots : list TimeSlot }.

(** The three arrays filled by the loop. *)
Definition pushSlot (acc : list TimeSlot * list TimeSlot * list TimeSlot) (slot : TimeSlot)
  : list TimeSlot * list TimeSlot * list TimeSlot :=
  let '(morning, afternoon, evening) := acc in
  let hour := hourOf slot in
  if hourBelow hour 12 then (morning ++ [slot], afternoon, evening)
  else if hourBelow hour 17 then (morning, afternoon ++ [slot], evening)
  else (morning, afternoon, evening ++ [slot]).

Definition categorizeSlots (all : list TimeSlot) : list SlotSection :=
  let '(morning, afternoon, evening) := fold_left pushSlot all ([], [], []) in
  (if Nat.ltb 0 (length morning) then [{| label := "Morning"; slots := morning |}] else [])
  ++ (if Nat.ltb 0 (length afternoon)
      then [{| label := "Afternoon"; slots := afternoon |}] else [])
  ++ (if Nat.ltb 0 (length evening) then [{| label := "Evening"; slots := evening |}] else []).

End Slots.

End TimeSlotPicker.

(** ** The appointment card (in the same source file): the status of an
    appointment and the actions offered for it *)

Module AppointmentCard.

Inductive Status := scheduled | checked_in | in_progress | completed | no_show | cancelled.

Definition isTerminal (status : Status) : bool :=
  match status with
  | completed | cancelled => true
  | _ => false
  end.

(** [nextStatusMap[status]] *)
Definition nextStatus (status : Status) : option Status :=
  match status with
  | scheduled => Some checked_in
  | checked_in => Some in_progress
  | in_progress => Some completed
  | completed => None
  | no_show => None
  | cancelled => None
  end.

(** The status given to [onStatusChange] by the primary button of the
    footer, when the button is rendered. *)
Definition primaryAction (status : Status) (hasOnStatusChange : bool) : option Status :=
  if negb (isTerminal status) then
    match nextStatus status with
    | Some next => if hasOnStatusChange then Some next else None
    | None => None
    end
  else None.

(** The status given to [onStatusChange] by the menu entry Mark No Show,
    when the menu can be opened and has the entry. *)
Definition menuAction (status : Status) (hasOnStatusChange : bool) : option Status :=
  if negb (isTerminal status) then (if hasOnStatusChange then Some no_show else None)
  else None.

End AppointmentCard.

(** ** Notions used to state the properties *)

Module Notions.
Import JsNumber Vitals DataTable.

(** The magnitude [m * 2^e] of a finite number, as a rational. *)
Definition magnitude (m : positive) (e : Z) : Q :=
  (inject_Z (Zpos m) * (2 # 1) ^ e)%Q.







(** The sort state after a click on a column header, for a caller that
    stores what [onSort] reports. *)
Definition clickSort (s : Sorting) (col : ColumnDef) : Sorting :=
  match handleSort (Some s) col with
  | Some (c, d) => {| column := c; direction := d |}
  | None => s
  end.

(** The row's [id] is [undefined] (or missing) or [null]. *)
Definition noId {Val : Type} (row : Row Val) : Prop :=
  get row "id" = undefined \/ get row "id" = null.

End Notions.

(** ** Checks run over ranges of one-decimal values *)

Module Checks.
Import JsNumber Vitals VitalSignsInput.

(** The integers [lo], [lo + 1], ..., [lo + count - 1]. *)
Definition Zrange (lo : Z) (count : nat) : list Z :=
  List.map (fun k => lo + Z.of_nat k) (seq 0 count).

(** The one-decimal value [n / 10], converted from [unit1], is valid for
    [field] in [unit2]. *)
Definition staysValid (convert : number -> string -> number) (field unit1 unit2 : string)
    (n : Z) : bool :=
  match validateVitalValue field (Some (convert (dec n 1) unit1)) (Some unit2) with
  | None => true
  | Some _ => false
  end.

(** The one-decimal value [n / 10] and its conversion from [unit1] are
    both above zero, the conversion is valid for [field] in [unit2], and
    converting it back from [unit2] gives [n / 10] again. *)
Definition convertsCleanly (convert : number -> string -> number)
    (field unit1 unit2 : string) (n : Z) : bool :=
  let x := dec n 1 in
  let y := convert x unit1 in
  same (convert y unit2) x && gt x (ofZ 0) && gt y (ofZ 0)
  && match validateVitalValue field (Some y) (Some unit2) with
     | None => true
     | Some _ => false
     end.

(** The error of one entry of the validation pass: none for a zero value. *)
Definition entryError (e : entry) : option ValidationError :=
  let '(f, v, u) := e in
  if strictEq v (ofZ 0) then None else validateVitalValue f (Some v) u.

(** The part of the day a slot falls in, by the hour printed for it. *)
Definition dayPart {TimeSlot : Type} (hourOf : TimeSlot -> option Z) (slot : TimeSlot)
  : string :=
  if TimeSlotPicker.hourBelow (hourOf slot) 12 then "Morning"
  else if TimeSlotPicker.hourBelow (hourOf slot) 17 then "Afternoon"
  else "Evening".

(** How many times an appointment can still be moved forward. *)
Definition stepsLeft (status : AppointmentCard.Status) : nat :=
  match status with
  | AppointmentCard.scheduled => 3
  | AppointmentCard.checked_in => 2
  | AppointmentCard.in_progress => 1
  | _ => 0
  end.

End Checks.

(** * Properties *)

(** ** Order of numbers *)

Module NumberFacts.
Import JsNumber.

Lemma compare_antisym (x y : number) :
  SFcompare y x = option_map CompOpp (SFcompare x y).
Proof.
  destruct x as [a | a | | a m e], y as [b | b | | b n f]; simpl;
    try destruct a; try destruct b; simpl; try reflexivity.
  - rewrite (Z.compare_antisym f e).
    destruct (f ?= e); simpl; try reflexivity.
    rewrite ?CompOpp_involutive, ?Pos.compare_cont_antisym; reflexivity.
  - rewrite (Z.compare_antisym f e).
    destruct (f ?= e); simpl; try reflexivity.
    rewrite ?CompOpp_involutive, ?Pos.compare_cont_antisym; reflexivity.
Qed.

(** [a <= b] excludes [b < a]. *)
Lemma le_not_gt (a b : number) : le a b = true -> lt b a = false.
Proof.
  unfold le, lt, SFleb, SFltb. rewrite (compare_antisym a b).
  destruct (SFcompare a b) as [[]|]; simpl; congruence.
Qed.

(** [a < b] excludes [b < a]. *)
Lemma lt_not_gt (a b : number) : lt a b = true -> lt b a = false.
Proof.
  unfold lt, SFltb. rewrite (compare_antisym a b).
  destruct (SFcompare a b) as [[]|]; simpl; congruence.
Qed.

(** Two numbers that are not NaN compare one way or the other. *)
Lemma not_lt_le (a b : number) :
  isNaN a = false -> isNaN b = false -> lt a b = false -> le b a = true.
Proof.
  unfold le, lt, SFleb, SFltb. rewrite (compare_antisym a b).
  destruct a as [s | s | | s m e], b as [t | t | | t n f]; simpl;
    try discriminate; try reflexivity; intros _ _;
    try destruct s; try destruct t; simpl; try congruence;
    destruct (e ?= f); simpl; try congruence;
    destruct (Pos.compare_cont Eq m n); simpl; congruence.
Qed.

Ltac order_cases :=
  repeat match goal with
  | H : context [Z.compare ?a ?b] |- _ =>
      destruct (Z.compare_spec a b); try subst
  | |- context [Z.compare ?a ?b] =>
      destruct (Z.compare_spec a b); try subst
  | H : context [Pos.compare_cont Eq ?a ?b] |- _ =>
      change (Pos.compare_cont Eq a b) with (Pos.compare a b) in H;
      destruct (Pos.compare_spec a b); try subst
  | |- context [Pos.compare_cont Eq ?a ?b] =>
      change (Pos.compare_cont Eq a b) with (Pos.compare a b);
      destruct (Pos.compare_spec a b); try subst
  end.

Lemma lt_trans (x y z : number) : lt x y = true -> lt y z = true -> lt x z = true.
Proof.
  unfold lt, SFltb.
  destruct x as [a | a | | a m e], y as [b | b | | b n f], z as [c | c | | c o g];
    simpl; try discriminate; try reflexivity;
    try destruct a; try destruct b; try destruct c; simpl;
    try discriminate; try reflexivity;
    intros H1 H2; order_cases; simpl in *;
    try discriminate; try reflexivity; try lia.
Qed.

End NumberFacts.

(** ** The vitals utilities *)

Module VitalsSpec.
Import JsNumber Vitals Notions NumberFacts.

(** Every own key of the table is one of its twelve entries. *)
Lemma own_range_entry (k : string) (r : RangeSpec) :
  VITAL_RANGES !! k = Some r -> (k, r) ∈ VITAL_RANGES_entries.
Proof. apply elem_of_list_to_map_2. Qed.

Ltac each_entry H :=
  apply own_range_entry in H; unfold VITAL_RANGES_entries in H;
  repeat (apply elem_of_cons in H as [H | H]; [inversion H; subst; clear H |]);
  [.. | apply elem_of_nil in H; destruct H].

(** The normal bounds come in pairs, and the lower one is not above the
    upper one. *)
Lemma normal_bounds_ordered (k : string) (r : RangeSpec) (a : literal) :
  VITAL_RANGES !! k = Some r -> normalMin r = Some a ->
  exists b, normalMax r = Some b /\ le (value a) (value b) = true.
Proof.
  intros H Ha. each_entry H; simpl in Ha; try discriminate;
    injection Ha as <-; eexists; (split; [reflexivity | vm_compute; reflexivity]).
Qed.

Lemma getRange_own (k : string) (r : RangeSpec) :
  VITAL_RANGES !! k = Some r -> getRange k = Own r.
Proof. intros H. unfold getRange. now rewrite H. Qed.

Lemma getRange_not_own (k : string) :
  VITAL_RANGES !! k = None -> getRange k = Inherited \/ getRange k = Undefined.
Proof. intros H. unfold getRange. rewrite H. case_bool_decide; auto. Qed.

(** Three increasing thresholds split the numbers into four bands. *)
Lemma bands (a b c x : number) (A : Type) (k1 k2 k3 k4 : A) :
  lt a b = true -> lt b c = true ->
  let band := if lt x a then k1 else if lt x b then k2
              else if lt x c then k3 else k4 in
  (lt x a = true -> band = k1) /\
  (le a x = true -> lt x b = true -> band = k2) /\
  (le b x = true -> lt x c = true -> band = k3) /\
  (le c x = true -> band = k4).
Proof.
  intros Hab Hbc band. subst band. repeat split.
  - intros H. rewrite H. reflexivity.
  - intros Hlo H. rewrite (le_not_gt _ _ Hlo), H. reflexivity.
  - intros Hlo H. rewrite H, (le_not_gt _ _ Hlo).
    destruct (lt x a) eqn:E; [| reflexivity].
    pose proof (lt_trans _ _ _ E Hab) as Hc.
    rewrite (le_not_gt _ _ Hlo) in Hc. discriminate Hc.
  - intros Hlo. pose proof (le_not_gt _ _ Hlo) as Hn. rewrite Hn.
    destruct (lt x b) eqn:Eb.
    { pose proof (lt_trans _ _ _ Eb Hbc) as Hc. rewrite Hn in Hc. discriminate Hc. }
    destruct (lt x a) eqn:Ea; [| reflexivity].
    pose proof (lt_trans _ _ _ Ea Hab) as Hc. rewrite Eb in Hc. discriminate Hc.
Qed.

(** C6: getBMICategory compares with strict less-than: below 18.5 it
    answers Underweight, from 18.5 and below 25 Normal, from 25 and below
    30 Overweight, from 30 on Obese; so 18.5, 25 and 30 themselves fall in
    the higher category. *)
Theorem getBMICategory_thresholds (bmi : number) :
  ((lt bmi (dec 185 1) = true -> getBMICategory bmi = "Underweight") /\
   (le (dec 185 1) bmi = true -> lt bmi (ofZ 25) = true ->
    getBMICategory bmi = "Normal") /\
   (le (ofZ 25) bmi = true -> lt bmi (ofZ 30) = true ->
    getBMICategory bmi = "Overweight") /\
   (le (ofZ 30) bmi = true -> getBMICategory bmi = "Obese")) /\
  getBMICategory (dec 185 1) = "Normal" /\
  getBMICategory (ofZ 25) = "Overweight" /\
  getBMICategory (ofZ 30) = "Obese" /\
  getBMICategory (dec 1849 2) = "Underweight" /\
  getBMICategory (dec 2499 2) = "Normal" /\
  getBMICategory (dec 2999 2) = "Overweight".
Proof.
  split.
  - refine (bands (dec 185 1) (ofZ 25) (ofZ 30) bmi string _ _ _ _ _ _);
      vm_compute; reflexivity.
  - repeat split; vm_compute; reflexivity.
Qed.

Lemma getBMICategory_thresholds_witness :
  getBMICategory (dec 229 1) = "Normal" /\ getBMICategory (ofZ 31) = "Obese".
Proof.
  split.
  - pose proof (getBMICategory_thresholds (dec 229 1)) as ((_ & H & _) & _).
    apply H; vm_compute; reflexivity.
  - pose proof (getBMICategory_thresholds (ofZ 31)) as ((_ & _ & _ & H) & _).
    apply H; vm_compute; reflexivity.
Defined.

(** The key of a field: temperature, weight and height take the unit
    into account, every other field is its own key. *)
Lemma rangeKeyOf_resolution (f : string) (u : option string) :
  (f = "temperature" ->
   rangeKeyOf f u = if bool_decide (u = Some "C") then "temperatureC" else "temperatureF") /\
  (f = "weight" ->
   rangeKeyOf f u = if bool_decide (u = Some "kg") then "weightKg" else "weightLb") /\
  (f = "height" ->
   rangeKeyOf f u = if bool_decide (u = Some "cm") then "heightCm" else "heightIn") /\
  (f <> "temperature" -> f <> "weight" -> f <> "height" -> rangeKeyOf f u = f).
Proof.
  unfold rangeKeyOf. repeat split.
  - intros ->. reflexivity.
  - intros ->. reflexivity.
  - intros ->. reflexivity.
  - intros H1 H2 H3. repeat case_bool_decide; congruence.
Qed.

(** The keys of weight and height carry no normal bounds. *)
Lemma weight_height_no_normal (f : string) (u : option string) :
  f = "weight" \/ f = "height" ->
  exists r, VITAL_RANGES !! rangeKeyOf f u = Some r /\ normalMin r = None.
Proof.
  intros [-> | ->]; unfold rangeKeyOf; simpl; case_bool_decide;
    eexists; (split; [vm_compute; reflexivity | reflexivity]).
Qed.

(** C8: isValueNormal resolves the unit-qualified key (temperature, weight
    and height depend on the unit, other fields are their own key); it
    answers unknown when that key has no normal bounds (weight, height,
    any key outside the table), low when the value is strictly below
    normalMin, high when it is strictly above normalMax, and normal
    otherwise. *)
Theorem isValueNormal_classification (f : string) (v : number) (u : option string) :
  ((f = "temperature" ->
    rangeKeyOf f u = if bool_decide (u = Some "C") then "temperatureC" else "temperatureF") /\
   (f = "weight" ->
    rangeKeyOf f u = if bool_decide (u = Some "kg") then "weightKg" else "weightLb") /\
   (f = "height" ->
    rangeKeyOf f u = if bool_decide (u = Some "cm") then "heightCm" else "heightIn") /\
   (f <> "temperature" -> f <> "weight" -> f <> "height" -> rangeKeyOf f u = f)) /\
  (VITAL_RANGES !! rangeKeyOf f u = None -> isValueNormal f v u = unknown) /\
  (forall r, VITAL_RANGES !! rangeKeyOf f u = Some r -> normalMin r = None ->
             isValueNormal f v u = unknown) /\
  (f = "weight" \/ f = "height" -> isValueNormal f v u = unknown) /\
  (forall r a, VITAL_RANGES !! rangeKeyOf f u = Some r -> normalMin r = Some a ->
     exists b, normalMax r = Some b /\
       (lt v (value a) = true -> isValueNormal f v u = low) /\
       (gt v (value b) = true -> isValueNormal f v u = high) /\
       (lt v (value a) = false -> gt v (value b) = false ->
        isValueNormal f v u = normal)) /\
  isValueNormal "heartRate" (ofZ 50) None = low /\
  isValueNormal "heartRate" (ofZ 72) None = normal /\
  isValueNormal "heartRate" (ofZ 150) None = high /\
  isValueNormal "weight" (ofZ 500) (Some "lb") = unknown.
Proof.
  split; [apply rangeKeyOf_resolution |].
  assert (Hnone : forall r, VITAL_RANGES !! rangeKeyOf f u = Some r ->
                            normalMin r = None -> isValueNormal f v u = unknown).
  { intros r Hr Hn. unfold isValueNormal. rewrite (getRange_own _ _ Hr), Hn. reflexivity. }
  split; [| split; [exact Hnone | split; [| split]]].
  - intros Hk. unfold isValueNormal.
    destruct (getRange_not_own _ Hk) as [-> | ->]; reflexivity.
  - intros Hf. destruct (weight_height_no_normal f u Hf) as (r & Hr & Hn).
    exact (Hnone r Hr Hn).
  - intros r a Hr Ha.
    destruct (normal_bounds_ordered _ _ _ Hr Ha) as (b & Hb & Hab).
    exists b. split; [exact Hb |].
    unfold isValueNormal. rewrite (getRange_own _ _ Hr), Ha, Hb.
    repeat split.
    + intros H. rewrite H. reflexivity.
    + intros H. rewrite H.
      destruct (lt v (value a)) eqn:E; [| reflexivity].
      pose proof (lt_trans _ _ _ H E) as Hc.
      rewrite (le_not_gt _ _ Hab) in Hc. discriminate Hc.
    + intros H1 H2. rewrite H1, H2. reflexivity.
  - repeat split; vm_compute; reflexivity.
Qed.

Lemma isValueNormal_classification_witness :
  isValueNormal "temperature" (dec 389 1) (Some "C") = high /\
  isValueNormal "height" (ofZ 180) (Some "cm") = unknown /\
  isValueNormal "pulse" (ofZ 80) None = unknown.
Proof.
  pose proof (isValueNormal_classification "temperature" (dec 389 1) (Some "C"))
    as (_ & _ & _ & _ & H & _).
  destruct (H (range (tenth 322) (tenth 433) (tenth 361) (tenth 375) "°C") (tenth 361))
    as (b & Hb & _ & Hhigh & _); [vm_compute; reflexivity | reflexivity |].
  injection Hb as <-.
  split; [apply Hhigh; vm_compute; reflexivity |].
  split.
  - pose proof (isValueNormal_classification "height" (ofZ 180) (Some "cm"))
      as (_ & _ & _ & Hwh & _).
    apply Hwh. right. reflexivity.
  - pose proof (isValueNormal_classification "pulse" (ofZ 80) None)
      as (_ & Hout & _).
    apply Hout. vm_compute. reflexivity.
Defined.

(** C2: validateVitalValue answers null for an absent value and for NaN,
    and for a key that the table does not have; for a key of the table it
    answers an error with the field name and the message built from the
    range's min, max and unit exactly when the value is below min or above
    max, so that a value within [min, max] raises no error even when it is
    outside the normal range. *)
Theorem validateVitalValue_absolute_range (f : string) (u : option string) :
  validateVitalValue f None u = None /\
  validateVitalValue f (Some NaN) u = None /\
  (VITAL_RANGES !! rangeKeyOf f u = None -> forall v, validateVitalValue f v u = None) /\
  (forall r x, VITAL_RANGES !! rangeKeyOf f u = Some r -> isNaN x = false ->
     (lt x (value (min r)) = true \/ gt x (value (max r)) = true ->
      validateVitalValue f (Some x) u =
        Some {| field := f;
                message := f +:+ " must be between " +:+ text (min r) +:+ " and "
                             +:+ text (max r) +:+ " " +:+ unit r |}) /\
     (validateVitalValue f (Some x) u <> None ->
      lt x (value (min r)) = true \/ gt x (value (max r)) = true) /\
     (le (value (min r)) x = true -> le x (value (max r)) = true ->
      validateVitalValue f (Some x) u = None)) /\
  validateVitalValue "heartRate" (Some (ofZ 300)) None =
    Some {| field := "heartRate";
            message := "heartRate must be between 30 and 250 bpm" |} /\
  validateVitalValue "heartRate" (Some (ofZ 72)) None = None /\
  (isValueNormal "heartRate" (ofZ 150) None = high /\
   validateVitalValue "heartRate" (Some (ofZ 150)) None = None).
Proof.
  split; [reflexivity |]. split; [reflexivity |]. split; [| split].
  - intros Hk [x |]; [| reflexivity]. unfold validateVitalValue.
    destruct (isNaN x); [reflexivity |].
    destruct (getRange_not_own _ Hk) as [-> | ->]; reflexivity.
  - intros r x Hr Hx.
    assert (Hv : validateVitalValue f (Some x) u =
                 if lt x (value (min r)) || gt x (value (max r))
                 then Some {| field := f; message := rangeMessage f r |} else None).
    { unfold validateVitalValue. rewrite Hx, (getRange_own _ _ Hr). reflexivity. }
    rewrite Hv. clear Hv. repeat split.
    + intros [H | H]; rewrite H; [reflexivity | rewrite orb_true_r; reflexivity].
    + destruct (lt x (value (min r))); [now left |].
      destruct (gt x (value (max r))); [now right |].
      simpl. intros H. now destruct H.
    + intros Hlo Hhi. change (gt x (value (max r))) with (lt (value (max r)) x).
      rewrite (le_not_gt _ _ Hlo), (le_not_gt _ _ Hhi). reflexivity.
  - repeat split; vm_compute; reflexivity.
Qed.

Lemma validateVitalValue_absolute_range_witness :
  validateVitalValue "temperature" (Some (ofZ 45)) (Some "C") =
    Some {| field := "temperature";
            message := "temperature must be between 32.2 and 43.3 °C" |} /\
  validateVitalValue "temperature" (Some (ofZ 39)) (Some "C") = None /\
  validateVitalValue "pulse" (Some (ofZ 500)) None = None.
Proof.
  pose proof (validateVitalValue_absolute_range "temperature" (Some "C"))
    as (_ & _ & _ & H & _).
  split; [| split].
  - destruct (H (range (tenth 322) (tenth 433) (tenth 361) (tenth 375) "°C") (ofZ 45))
      as (Herr & _); [vm_compute; reflexivity | reflexivity |].
    rewrite Herr; [vm_compute; reflexivity | right; vm_compute; reflexivity].
  - destruct (H (range (tenth 322) (tenth 433) (tenth 361) (tenth 375) "°C") (ofZ 39))
      as (_ & _ & Hok); [vm_compute; reflexivity | reflexivity |].
    apply Hok; vm_compute; reflexivity.
  - pose proof (validateVitalValue_absolute_range "pulse" None)
      as (_ & _ & Hout & _).
    apply Hout. vm_compute. reflexivity.
Defined.

(** *** Rounding to one decimal *)

(** The integer chosen by toFixed(1) is the nearest one to ten times the
    magnitude, the larger one at a tie. *)
Lemma nearest_tenths_bounds (m p : positive) :
  let n := nearest_tenths m (Zneg p) in
  (2 * n - 1) * 2 ^ Zpos p <= 20 * Zpos m < (2 * n + 1) * 2 ^ Zpos p.
Proof.
  unfold nearest_tenths.
  rewrite Z.pow_add_r, Z.pow_1_r by lia.
  assert (Hd : 0 < 2 ^ Zpos p) by (apply Z.pow_pos_nonneg; lia).
  set (d := 2 ^ Zpos p) in *.
  pose proof (Z.div_mod (20 * Zpos m + d) (d * 2) ltac:(lia)) as Hdm.
  pose proof (Z.mod_pos_bound (20 * Zpos m + d) (d * 2) ltac:(lia)) as Hb.
  set (q := (20 * Zpos m + d) / (d * 2)) in *. lia.
Qed.

Lemma nearest_tenths_exact (m : positive) (e : Z) :
  0 <= e -> nearest_tenths m e = 10 * Zpos m * 2 ^ e.
Proof. destruct e; intros H; [reflexivity | reflexivity | lia]. Qed.

Lemma toFixed1_rounds_to_nearest (m : positive) (e : Z) :
  let n := inject_Z (nearest_tenths m e) in
  (n - (1 # 2) <= 10 * magnitude m e /\ 10 * magnitude m e < n + (1 # 2))%Q.
Proof.
  unfold magnitude. destruct e as [| p | p].
  - simpl nearest_tenths. simpl Qpower.
    rewrite Z.mul_1_r. rewrite Qmult_1_r.
    replace (inject_Z (10 * Zpos m)) with (10 * inject_Z (Zpos m))%Q by reflexivity.
    set (q := (10 * inject_Z (Zpos m))%Q).
    split; lra.
  - rewrite nearest_tenths_exact by lia.
    change (2 # 1)%Q with (inject_Z 2).
    rewrite <- Zpower_Qpower by lia.
    rewrite !inject_Z_mult.
    set (q := (inject_Z 10 * inject_Z (Zpos m) * inject_Z (2 ^ Zpos p))%Q).
    assert (Hq : (10 * (inject_Z (Zpos m) * inject_Z (2 ^ Zpos p)) == q)%Q)
      by (subst q; ring).
    rewrite Hq.
    split; lra.
  - pose proof (nearest_tenths_bounds m p) as [Hlo Hhi]. cbv zeta in *.
    set (n := nearest_tenths m (Zneg p)) in *.
    assert (Hd : 0 < 2 ^ Zpos p) by (apply Z.pow_pos_nonneg; lia).
    change (Zneg p) with (- Zpos p). rewrite Qpower_opp.
    change (2 # 1)%Q with (inject_Z 2).
    rewrite <- Zpower_Qpower by lia.
    set (d := 2 ^ Zpos p) in *.
    assert (Hdq : (0 < inject_Z d)%Q) by (change (inject_Z 0 < inject_Z d)%Q; rewrite <- Zlt_Qlt; exact Hd).
    split.
    + apply Qmult_le_r with (z := (2 * inject_Z d)%Q).
      { apply Qmult_lt_0_compat; [reflexivity | exact Hdq]. }
      assert (E1 : ((inject_Z n - (1 # 2)) * (2 * inject_Z d) ==
                    inject_Z ((2 * n - 1) * d))%Q).
      { replace (2 * n - 1) with (2 * n + -1) by lia.
        rewrite inject_Z_mult, inject_Z_plus, inject_Z_mult.
        change (inject_Z 2) with 2%Q. change (inject_Z (-1)) with (-1 # 1)%Q. ring. }
      assert (E2 : (10 * (inject_Z (Zpos m) * / inject_Z d) * (2 * inject_Z d) ==
                    inject_Z (20 * Zpos m))%Q).
      { rewrite inject_Z_mult. change (inject_Z 20) with 20%Q. field.
        intros Hz. rewrite Hz in Hdq. discriminate Hdq. }
      rewrite E1, E2. rewrite <- Zle_Qle. exact Hlo.
    + apply Qmult_lt_r with (z := (2 * inject_Z d)%Q).
      { apply Qmult_lt_0_compat; [reflexivity | exact Hdq]. }
      assert (E1 : ((inject_Z n + (1 # 2)) * (2 * inject_Z d) ==
                    inject_Z ((2 * n + 1) * d))%Q).
      { rewrite inject_Z_mult, inject_Z_plus, inject_Z_mult.
        change (inject_Z 2) with 2%Q. change (inject_Z 1) with 1%Q. ring. }
      assert (E2 : (10 * (inject_Z (Zpos m) * / inject_Z d) * (2 * inject_Z d) ==
                    inject_Z (20 * Zpos m))%Q).
      { rewrite inject_Z_mult. change (inject_Z 20) with 20%Q. field.
        intros Hz. rewrite Hz in Hdq. discriminate Hdq. }
      rewrite E1, E2. rewrite <- Zlt_Qlt. exact Hhi.
Qed.

(** C7: calculateBMI answers null exactly when the weight or the height
    is at most zero; otherwise it answers the weight divided by the square
    of the height in metres, rounded to one decimal by toFixed(1); for 70 kg
    and 175 cm that is 22.9. *)
Theorem calculateBMI_null_or_rounded (weightKg heightCm : number) :
  (calculateBMI weightKg heightCm = None <->
   le weightKg (ofZ 0) = true \/ le heightCm (ofZ 0) = true) /\
  (le weightKg (ofZ 0) = false -> le heightCm (ofZ 0) = false ->
   calculateBMI weightKg heightCm =
     Some (toFixed1 (div weightKg (mul (div heightCm (ofZ 100))
                                       (div heightCm (ofZ 100)))))) /\
  calculateBMI (ofZ 70) (ofZ 175) = Some (dec 229 1).
Proof.
  unfold calculateBMI. split; [| split].
  - destruct (le weightKg (ofZ 0)), (le heightCm (ofZ 0)); simpl; split;
      try (intros _; auto; fail); try discriminate.
    intros [H | H]; discriminate H.
  - intros -> ->. reflexivity.
  - vm_compute. reflexivity.
Qed.

Lemma calculateBMI_null_or_rounded_witness :
  calculateBMI (ofZ 0) (ofZ 175) = None /\
  calculateBMI (ofZ 82) (ofZ 180) = Some (dec 253 1).
Proof.
  pose proof (calculateBMI_null_or_rounded (ofZ 0) (ofZ 175)) as ((_ & H0) & _).
  pose proof (calculateBMI_null_or_rounded (ofZ 82) (ofZ 180)) as (_ & H1 & _).
  split.
  - apply H0. left. vm_compute. reflexivity.
  - rewrite H1; vm_compute; reflexivity.
Defined.

(** *** The temperature round trip *)

Lemma same_eq (x y : number) : same x y = true -> x = y.
Proof.
  destruct x as [a | a | | a m e], y as [b | b | | b n f]; simpl;
    try discriminate; try reflexivity.
  - intros H. apply Bool.eqb_prop in H. congruence.
  - intros H. apply Bool.eqb_prop in H. congruence.
  - intros H. apply andb_prop in H as [H He]. apply andb_prop in H as [Hs Hm].
    apply Bool.eqb_prop in Hs. apply Pos.eqb_eq in Hm. apply Z.eqb_eq in He.
    congruence.
Qed.





End VitalsSpec.

(** ** The vitals form *)

Module VitalSignsInputSpec.
Import JsNumber Vitals VitalSignsInput NumberFacts.

Lemma strictEq_zero (v : number) :
  strictEq v (ofZ 0) = true -> exists s, v = S754_zero s.
Proof.
  destruct v as [s | s | | s m e]; try destruct s; vm_compute; try discriminate;
    intros _; eexists; reflexivity.
Qed.

(** The field names of the validation pass are pairwise different. *)
Lemma fieldsToValidate_functional (vitals : VitalSigns) f v u v' u' :
  (f, v, u) ∈ fieldsToValidate vitals -> (f, v', u') ∈ fieldsToValidate vitals ->
  v = v' /\ u = u'.
Proof.
  unfold fieldsToValidate. intros H H'.
  repeat (apply elem_of_cons in H as [H | H];
          [injection H as -> -> -> |]); try (apply elem_of_nil in H; destruct H);
  repeat (apply elem_of_cons in H' as [H' | H'];
          [first [discriminate H' | injection H' as -> ->; split; reflexivity] |]);
  apply elem_of_nil in H'; destruct H'.
Qed.

Lemma numberOf_entry (vitals : VitalSigns) f v u :
  (f, v, u) ∈ fieldsToValidate vitals -> numberOf vitals f = Some v.
Proof.
  destruct vitals. unfold fieldsToValidate. simpl. intros H.
  repeat (apply elem_of_cons in H as [H | H];
          [injection H as -> -> ->; vm_compute; reflexivity |]).
  apply elem_of_nil in H. destruct H.
Qed.

(** Whatever the loop adds to its accumulators comes from an entry whose
    value is not zero. *)
Lemma validateEntry_origin (es : list entry) (acc : accumulators) :
  (forall err, err ∈ (fold_left validateEntry es acc).1 ->
     err ∈ acc.1 \/
     exists v u, (field err, v, u) ∈ es /\ strictEq v (ofZ 0) = false) /\
  (forall f, (fold_left validateEntry es acc).2 !! f <> None ->
     acc.2 !! f <> None \/
     exists v u, (f, v, u) ∈ es /\ strictEq v (ofZ 0) = false).
Proof.
  revert acc. induction es as [| [[f0 v0] u0] es IH]; intros acc; simpl.
  - split; intros; now left.
  - destruct (IH (validateEntry acc (f0, v0, u0))) as [IHe IHm].
    assert (Hstep :
      validateEntry acc (f0, v0, u0) = acc \/
      exists err, strictEq v0 (ofZ 0) = false /\ field err = f0 /\
        validateEntry acc (f0, v0, u0) = (acc.1 ++ [err], <[f0 := message err]> (acc.2))).
    { unfold validateEntry. destruct (strictEq v0 (ofZ 0)) eqn:E0; [now left |].
      destruct (validateVitalValue f0 (Some v0) u0) as [err |] eqn:Ev; [| now left].
      right. exists err. repeat split.
      unfold validateVitalValue in Ev. destruct (isNaN v0); [discriminate |].
      destruct (getRange (rangeKeyOf f0 u0)); try discriminate.
      destruct (_ || _); [| discriminate]. now injection Ev as <-. }
    split.
    + intros err Herr. destruct (IHe err Herr) as [Hin | (v & u & Hin & Hz)].
      * destruct Hstep as [Hs | (e0 & Hz & Hf & Hs)]; rewrite Hs in Hin;
          [now left |].
        simpl in Hin. apply elem_of_app in Hin as [Hin | Hin]; [now left |].
        apply list_elem_of_singleton in Hin as ->. right.
        exists v0, u0. rewrite Hf. split; [apply elem_of_cons; now left | exact Hz].
      * right. exists v, u. split; [apply elem_of_cons; now right | exact Hz].
    + intros f Hf. destruct (IHm f Hf) as [Hin | (v & u & Hin & Hz)].
      * destruct Hstep as [Hs | (e0 & Hz & He0 & Hs)]; rewrite Hs in Hin;
          [now left |].
        simpl in Hin. destruct (decide (f0 = f)) as [<- | Hne].
        -- right. exists v0, u0. split; [apply elem_of_cons; now left | exact Hz].
        -- rewrite lookup_insert_ne in Hin by exact Hne. now left.
      * right. exists v, u. split; [apply elem_of_cons; now right | exact Hz].
Qed.

(** Zero is below the minimum of every field of the pass but the pain
    level, whatever the unit. *)
Lemma zero_below_minimum (vitals : VitalSigns) f v u :
  (f, v, u) ∈ fieldsToValidate vitals -> f <> "painLevel" ->
  validateVitalValue f (Some (ofZ 0)) u <> None.
Proof.
  unfold fieldsToValidate. intros Hin Hp.
  repeat (apply elem_of_cons in Hin as [Hin | Hin];
          [injection Hin as -> -> -> |]);
    try (apply elem_of_nil in Hin; destruct Hin); try congruence;
    unfold validateVitalValue, rangeKeyOf;
    destruct (bool_decide (_ = Some "C")), (bool_decide (_ = Some "kg")),
      (bool_decide (_ = Some "cm")); vm_compute; discriminate.
Qed.

(** C3: a field whose stored value is exactly zero is treated as unset:
    the validation pass records no error under its name and reports none
    for it, and neither an abnormal Low/High indicator nor an abnormal or
    error class is produced for it; this holds although zero is below the
    minimum of every field but the pain level. *)
Theorem zero_value_is_unset (vitals : VitalSigns) (hasCallback : bool)
    (f : string) (v : number) (u : option string) :
  (f, v, u) ∈ fieldsToValidate vitals ->
  strictEq v (ofZ 0) = true ->
  (runValidation vitals hasCallback).1 !! f = None /\
  (forall errs err, (runValidation vitals hasCallback).2 = Some errs ->
                    err ∈ errs -> field err <> f) /\
  getAbnormalIndicator vitals f u = None /\
  (forall errors, getInputClassName vitals errors f u = input) /\
  (f <> "painLevel" -> validateVitalValue f (Some (ofZ 0)) u <> None).
Proof.
  intros Hin Hz.
  destruct (validateEntry_origin (fieldsToValidate vitals) ([], ∅)) as [He Hm].
  fold (validateAll (fieldsToValidate vitals)) in He, Hm.
  unfold runValidation.
  destruct (validateAll (fieldsToValidate vitals)) as [errs newErrors] eqn:Eall.
  cbn [fst snd] in *.
  split; [| split; [| split; [| split]]].
  - destruct (newErrors !! f) eqn:El; [| reflexivity]. exfalso.
    destruct (Hm f) as [H0 | (v' & u' & Hin' & Hz')].
    + rewrite El. discriminate.
    + rewrite lookup_empty in H0. now apply H0.
    + destruct (fieldsToValidate_functional _ _ _ _ _ _ Hin Hin') as [<- _].
      congruence.
  - intros errs' err Hrep Herr Hf.
    destruct (hasCallback && _); [| discriminate]. injection Hrep as <-.
    destruct (He err Herr) as [H0 | (v' & u' & Hin' & Hz')].
    + apply elem_of_nil in H0. destruct H0.
    + rewrite Hf in Hin'.
      destruct (fieldsToValidate_functional _ _ _ _ _ _ Hin Hin') as [<- _].
      congruence.
  - unfold getAbnormalIndicator. rewrite (numberOf_entry _ _ _ _ Hin), Hz.
    rewrite orb_true_r. reflexivity.
  - intros errors. unfold getInputClassName.
    rewrite (numberOf_entry _ _ _ _ Hin), Hz, orb_true_r. reflexivity.
  - intros Hp. exact (zero_below_minimum vitals f v u Hin Hp).
Qed.

Lemma zero_value_is_unset_witness :
  (runValidation DEFAULT_VITALS true).1 !! "heartRate" = None /\
  getAbnormalIndicator DEFAULT_VITALS "heartRate" None = None /\
  validateVitalValue "heartRate" (Some (ofZ 0)) None <> None.
Proof.
  assert (Hin : ("heartRate", ofZ 0, None) ∈ fieldsToValidate DEFAULT_VITALS).
  { unfold fieldsToValidate. do 2 (apply elem_of_cons; right). apply elem_of_cons. now left. }
  destruct (zero_value_is_unset DEFAULT_VITALS true "heartRate" (ofZ 0) None Hin)
    as (H1 & _ & H3 & _ & H5); [reflexivity |].
  split; [exact H1 | split; [exact H3 | apply H5; discriminate]].
Defined.

End VitalSignsInputSpec.

(** ** The data table *)

Module DataTableSpec.
Import DataTable Notions.

(** *** The virtual window *)


Lemma ceiling_of_positive (h : Q) : (0 < h)%Q -> 0 <= Qceiling (h / inject_Z ROW_HEIGHT).
Proof.
  intros Hh.
  assert (Hq : (0 < h / inject_Z ROW_HEIGHT)%Q).
  { apply Qlt_shift_div_l; [reflexivity |]. rewrite Qmult_0_l. exact Hh. }
  pose proof (Qle_ceiling (h / inject_Z ROW_HEIGHT)) as Hc.
  assert (Hz : (inject_Z 0 < inject_Z (Qceiling (h / inject_Z ROW_HEIGHT)))%Q).
  { eapply Qlt_le_trans; [exact Hq | exact Hc]. }
  rewrite <- Zlt_Qlt in Hz. lia.
Qed.





(** *** The sort toggle *)

Lemma handleSort_without_config (col : ColumnDef) : handleSort None col = None.
Proof. reflexivity. Qed.

(** C5: a click on a column that is not sortable reports nothing, so the
    sort state stays as it is; on a sortable column c the next state is
    (c, desc) when the current one is (c, asc), and (c, asc) in every other
    case: another current column, the same column descending, or no column
    sorted yet. *)
Theorem handleSort_next_state (s : Sorting) (col : ColumnDef) :
  (sortable col <> Some true ->
   handleSort (Some s) col = None /\ clickSort s col = s) /\
  (sortable col = Some true -> column s = id col -> direction s = asc ->
   handleSort (Some s) col = Some (id col, desc) /\
   clickSort s col = {| column := id col; direction := desc |}) /\
  (sortable col = Some true -> column s <> id col \/ direction s = desc ->
   handleSort (Some s) col = Some (id col, asc) /\
   clickSort s col = {| column := id col; direction := asc |}) /\
  (sortable col = Some true ->
   clickSort (clickSort (clickSort s col) col) col = clickSort s col).
Proof.
  assert (Hoff : sortable col <> Some true -> handleSort (Some s) col = None).
  { unfold handleSort. destruct (sortable col) as [[|]|]; simpl; congruence. }
  assert (Hon : sortable col = Some true ->
                handleSort (Some s) col =
                  Some (id col,
                        if bool_decide (column s = id col)
                           && match direction s with asc => true | desc => false end
                        then desc else asc)).
  { unfold handleSort. intros ->. reflexivity. }
  assert (Hdesc : sortable col = Some true -> column s = id col -> direction s = asc ->
                  handleSort (Some s) col = Some (id col, desc)).
  { intros Hs Hc Hd. rewrite (Hon Hs), Hd, bool_decide_eq_true_2 by exact Hc.
    reflexivity. }
  assert (Hasc : sortable col = Some true -> column s <> id col \/ direction s = desc ->
                 handleSort (Some s) col = Some (id col, asc)).
  { intros Hs [Hc | Hd]; rewrite (Hon Hs).
    - rewrite bool_decide_eq_false_2 by exact Hc. reflexivity.
    - rewrite Hd, andb_false_r. reflexivity. }
  split; [| split; [| split]].
  - intros Hs. unfold clickSort. rewrite (Hoff Hs). split; reflexivity.
  - intros Hs Hc Hd. unfold clickSort. rewrite (Hdesc Hs Hc Hd). split; reflexivity.
  - intros Hs Hcd. unfold clickSort. rewrite (Hasc Hs Hcd). split; reflexivity.
  - intros Hs. unfold clickSort, handleSort. rewrite Hs.
    destruct s as [c0 d]. simpl.
    destruct (bool_decide (c0 = id col)), d; simpl;
      rewrite ?bool_decide_eq_true_2 by reflexivity; simpl;
      rewrite ?bool_decide_eq_true_2 by reflexivity; reflexivity.
Qed.

Lemma handleSort_next_state_witness :
  let age := {| id := "age"; sortable := Some true |} in
  let name := {| id := "name"; sortable := Some true |} in
  let notes := {| id := "notes"; sortable := None |} in
  let s0 := {| column := EmptyString; direction := asc |} in
  clickSort s0 age = {| column := "age"; direction := asc |} /\
  clickSort (clickSort s0 age) age = {| column := "age"; direction := desc |} /\
  clickSort (clickSort (clickSort s0 age) age) name =
    {| column := "name"; direction := asc |} /\
  clickSort (clickSort s0 age) notes = clickSort s0 age.
Proof.
  intros age name notes s0.
  pose proof (handleSort_next_state s0 age) as (_ & _ & H1 & _).
  pose proof (handleSort_next_state (clickSort s0 age) age) as (_ & H2 & _).
  pose proof (handleSort_next_state (clickSort (clickSort s0 age) age) name)
    as (_ & _ & H3 & _).
  pose proof (handleSort_next_state (clickSort s0 age) notes) as (H4 & _).
  split; [apply H1; [reflexivity | left; discriminate] |].
  split; [apply H2; reflexivity |].
  split; [apply H3; [reflexivity | left; discriminate] |].
  apply H4. discriminate.
Defined.

(** *** Row keys and select-all *)

Section Rows.
Context {Val : Type} (String_ : Val -> string).

(** [every] with the index: the test holds at each position. *)
Lemma everyFrom_lookup {A} (p : A -> nat -> bool) (data : list A) (i : nat) :
  everyFrom p i data = true <->
  forall j row, data !! j = Some row -> p row (i + j)%nat = true.
Proof.
  revert i. induction data as [| row0 rest IH]; intros i; simpl.
  - split; [intros _ j row H; discriminate H | reflexivity].
  - rewrite andb_true_iff, IH. split.
    + intros [H0 Hrest] [| j] row H; simpl in H.
      * injection H as <-. now rewrite Nat.add_0_r.
      * rewrite Nat.add_succ_r. apply (Hrest j row H).
    + intros H. split.
      * specialize (H 0%nat row0 eq_refl). now rewrite Nat.add_0_r in H.
      * intros j row Hj. specialize (H (S j) row Hj).
        now rewrite Nat.add_succ_r in H.
Qed.

(** The test of [isAllSelected] says that every row key is selected. *)
Lemma every_key_selected (selected : list string) (data : list (Row Val))
    (rowKey : option (RowKey Val)) :
  everyFrom (fun row i => includes selected (getRowKey String_ row i rowKey)) 0 data = true <->
  forall k, k ∈ rowKeys String_ data rowKey -> k ∈ selected.
Proof.
  rewrite everyFrom_lookup. unfold rowKeys, includes. split.
  - intros H k Hk. apply elem_of_lookup_imap in Hk as (j & row & -> & Hj).
    specialize (H j row Hj). simpl in H. now apply bool_decide_eq_true in H.
  - intros H j row Hj. simpl. apply bool_decide_eq_true. apply H.
    apply elem_of_lookup_imap. exists j, row. split; [reflexivity | exact Hj].
Qed.

(** C4: select-all answers the empty selection when every key of the rows
    given to the table is already selected, and otherwise exactly the list
    of the keys of those rows: the previous selection is replaced, so that
    a key selected before and not among the rows is dropped. *)
Theorem handleSelectAll_toggle (sel : Selection) (data : list (Row Val))
    (rowKey : option (RowKey Val)) :
  ((forall k, k ∈ rowKeys String_ data rowKey -> k ∈ selected sel) ->
   handleSelectAll String_ (Some sel) data rowKey = Some []) /\
  (~ (forall k, k ∈ rowKeys String_ data rowKey -> k ∈ selected sel) ->
   handleSelectAll String_ (Some sel) data rowKey = Some (rowKeys String_ data rowKey)) /\
  (forall result k,
     handleSelectAll String_ (Some sel) data rowKey = Some result ->
     k ∈ selected sel -> k ∉ rowKeys String_ data rowKey -> k ∉ result).
Proof.
  assert (Hall : (forall k, k ∈ rowKeys String_ data rowKey -> k ∈ selected sel) ->
                 handleSelectAll String_ (Some sel) data rowKey = Some []).
  { unfold handleSelectAll, isAllSelected. intros Hall.
    destruct data as [| row rest]; [reflexivity |].
    simpl length. simpl Nat.eqb. cbv iota.
    apply every_key_selected in Hall. rewrite Hall. reflexivity. }
  assert (Hnot : ~ (forall k, k ∈ rowKeys String_ data rowKey -> k ∈ selected sel) ->
                 handleSelectAll String_ (Some sel) data rowKey =
                   Some (rowKeys String_ data rowKey)).
  { unfold handleSelectAll, isAllSelected. intros Hnot.
    destruct (Nat.eqb (length data) 0); [reflexivity |].
    destruct (everyFrom _ 0 data) eqn:Ev; [| reflexivity].
    exfalso. apply Hnot. apply every_key_selected. exact Ev. }
  split; [exact Hall | split; [exact Hnot |]].
  intros result k Hres _ Hout Hin.
  unfold handleSelectAll in Hres.
  destruct (isAllSelected _ _ _ _); injection Hres as <-.
  - apply elem_of_nil in Hin. exact Hin.
  - exact (Hout Hin).
Qed.

End Rows.

Lemma handleSelectAll_toggle_witness :
  let rows : list (Row string) :=
    [ {[ "id" := defined "1" ]}; {[ "id" := defined "2" ]}; {[ "id" := defined "3" ]} ] in
  handleSelectAll (fun s => s) (Some {| selected := ["9"; "2"]; mode := multiple |}) rows None
    = Some ["1"; "2"; "3"] /\
  handleSelectAll (fun s => s) (Some {| selected := ["1"; "2"; "3"]; mode := multiple |}) rows None
    = Some [].
Proof.
  intros rows.
  pose proof (handleSelectAll_toggle (fun s : string => s)
                {| selected := ["9"; "2"]; mode := multiple |} rows None) as (_ & H1 & _).
  pose proof (handleSelectAll_toggle (fun s : string => s)
                {| selected := ["1"; "2"; "3"]; mode := multiple |} rows None) as (H2 & _).
  split.
  - apply H1.
    intros Hall. specialize (Hall "1").
    assert (Hin : "1" ∈ rowKeys (fun s : string => s) rows None).
    { vm_compute. apply elem_of_cons. now left. }
    specialize (Hall Hin). simpl in Hall.
    apply elem_of_cons in Hall as [Hall | Hall]; [discriminate Hall |].
    apply elem_of_cons in Hall as [Hall | Hall]; [discriminate Hall |].
    apply elem_of_nil in Hall. exact Hall.
  - apply H2. intros k Hk. exact Hk.
Defined.

Section RowKeys.
Context {Val : Type} (String_ : Val -> string).

(** C10: with no rowKey configured, a row whose id is null or undefined
    gets its index, printed in decimal, as key; two such rows at different
    positions get different keys, and the key of such a row changes when
    its position does. *)
Theorem getRowKey_index_fallback (row row' : Row Val) (i j : nat) :
  noId row -> noId row' ->
  getRowKey String_ row i None = pretty i /\
  (i <> j -> getRowKey String_ row i None <> getRowKey String_ row' j None) /\
  (i <> j -> getRowKey String_ row i None <> getRowKey String_ row j None).
Proof.
  assert (Hkey : forall (r : Row Val) (n : nat),
                   noId r -> getRowKey String_ r n None = pretty n).
  { intros r n [H | H]; unfold getRowKey; simpl; rewrite H; reflexivity. }
  intros Hrow Hrow'. split; [exact (Hkey row i Hrow) |].
  split; intros Hij; rewrite !Hkey by assumption;
    intros Heq; apply Hij; exact (pretty_nat_inj _ _ Heq).
Qed.

End RowKeys.

Lemma getRowKey_index_fallback_witness :
  getRowKey (fun s : string => s) {[ "name" := defined "Ada" ]} 12 None = "12" /\
  getRowKey (fun s : string => s) {[ "name" := defined "Ada" ]} 12 None <>
  getRowKey (fun s : string => s) {[ "id" := null; "name" := defined "Bob" ]} 3 None.
Proof.
  destruct (getRowKey_index_fallback (fun s : string => s)
              {[ "name" := defined "Ada" ]} {[ "id" := null; "name" := defined "Bob" ]}
              12 3) as (H1 & H2 & _).
  - left. vm_compute. reflexivity.
  - right. vm_compute. reflexivity.
  - split; [rewrite H1; vm_compute; reflexivity | apply H2; lia].
Defined.

End DataTableSpec.

(** ** The data table: rendered rows, row selection, pagination *)

Module DataTableRows.
Import DataTable Notions.

(** The window of an active table, read back from the result. *)
Lemma virtualState_Some (dataLength : nat) (threshold : Z) (loading : bool)
    (scrollTop containerHeight : Q) (w : VirtualState) :
  virtualState dataLength threshold loading scrollTop containerHeight = Some w ->
  startIndex w = Z.max 0 (Qfloor (scrollTop / inject_Z ROW_HEIGHT) - 5) /\
  endIndex w = Z.min (Z.of_nat dataLength)
                 (startIndex w + (Qceiling (containerHeight / inject_Z ROW_HEIGHT) + 10)) /\
  offsetY w = startIndex w * ROW_HEIGHT /\
  totalHeight w = Z.of_nat dataLength * ROW_HEIGHT.
Proof.
  unfold virtualState.
  destruct (negb (shouldVirtualize dataLength threshold loading)); [discriminate |].
  intros H. injection H as <-. repeat split.
Qed.

Lemma floor_of_nonneg (x : Q) : (0 <= x)%Q -> 0 <= Qfloor (x / inject_Z ROW_HEIGHT).
Proof.
  intros Hx. change 0 with (Qfloor 0). apply Qfloor_resp_le.
  apply Qle_shift_div_l; [reflexivity |]. rewrite Qmult_0_l. exact Hx.
Qed.

(** A row whose top edge is above [y] lies, in rows, at or above the
    floor of [y / 41]; a row whose bottom edge is below [y] is below it. *)
Lemma floor_le_row (y : Q) (r : Z) :
  (y < inject_Z ((r + 1) * ROW_HEIGHT))%Q -> Qfloor (y / inject_Z ROW_HEIGHT) <= r.
Proof.
  intros H.
  assert (Hq : (y / inject_Z ROW_HEIGHT < inject_Z (r + 1))%Q).
  { apply Qlt_shift_div_r; [reflexivity |]. rewrite <- inject_Z_mult. exact H. }
  pose proof (Qfloor_le (y / inject_Z ROW_HEIGHT)) as Hf.
  assert (Hz : (inject_Z (Qfloor (y / inject_Z ROW_HEIGHT)) < inject_Z (r + 1))%Q)
    by (eapply Qle_lt_trans; [exact Hf | exact Hq]).
  rewrite <- Zlt_Qlt in Hz. lia.
Qed.

Lemma row_below_sum (s h : Q) (r : Z) :
  (inject_Z (r * ROW_HEIGHT) < s + h)%Q ->
  r <= Qfloor (s / inject_Z ROW_HEIGHT) + Qceiling (h / inject_Z ROW_HEIGHT).
Proof.
  intros H.
  pose proof (Qlt_floor (s / inject_Z ROW_HEIGHT)) as Hs.
  pose proof (Qle_ceiling (h / inject_Z ROW_HEIGHT)) as Hh.
  set (fl := Qfloor (s / inject_Z ROW_HEIGHT)) in *.
  set (ce := Qceiling (h / inject_Z ROW_HEIGHT)) in *.
  assert (Hr : (inject_Z r < s / inject_Z ROW_HEIGHT + h / inject_Z ROW_HEIGHT)%Q).
  { assert (E : (s / inject_Z ROW_HEIGHT + h / inject_Z ROW_HEIGHT ==
                 (s + h) / inject_Z ROW_HEIGHT)%Q) by (field; discriminate).
    rewrite E. apply Qlt_shift_div_l; [reflexivity |].
    rewrite <- inject_Z_mult. exact H. }
  assert (Hz : (inject_Z r < inject_Z (fl + 1 + ce))%Q).
  { rewrite !inject_Z_plus. rewrite inject_Z_plus in Hs. lra. }
  rewrite <- Zlt_Qlt in Hz. lia.
Qed.

(** X1: every row that overlaps the viewport is inside the window. *)
Theorem window_covers_viewport (dataLength : nat) (threshold : Z) (loading : bool)
    (scrollTop containerHeight : Q) (w : VirtualState) (r : Z) :
  (0 <= scrollTop)%Q -> (0 < containerHeight)%Q ->
  virtualState dataLength threshold loading scrollTop containerHeight = Some w ->
  0 <= r < Z.of_nat dataLength ->
  (scrollTop < inject_Z ((r + 1) * ROW_HEIGHT))%Q ->
  (inject_Z (r * ROW_HEIGHT) < scrollTop + containerHeight)%Q ->
  startIndex w <= r < endIndex w.
Proof.
  intros Hs Hh Hw Hr Htop Hbottom.
  destruct (virtualState_Some _ _ _ _ _ _ Hw) as (Hstart & Hend & _ & _).
  pose proof (floor_le_row _ _ Htop) as H1.
  pose proof (row_below_sum _ _ _ Hbottom) as H2.
  rewrite Hend, Hstart. lia.
Qed.

Lemma window_covers_viewport_witness :
  exists w, virtualState 1000 100 false 8200 600 = Some w /\
            startIndex w <= 200 < endIndex w /\ startIndex w <= 214 < endIndex w.
Proof.
  eexists. split; [reflexivity |]. split.
  - apply (window_covers_viewport 1000 100 false 8200 600 _ 200);
      [discriminate | reflexivity | reflexivity | lia | reflexivity | reflexivity].
  - apply (window_covers_viewport 1000 100 false 8200 600 _ 214);
      [discriminate | reflexivity | reflexivity | lia | reflexivity | reflexivity].
Defined.

(** *** Slices *)

Lemma length_slice {A} (l : list A) (first last : Z) :
  0 <= first -> 0 <= last ->
  Z.of_nat (length (slice l first last)) =
    Z.max 0 (Z.min last (Z.of_nat (length l)) - Z.min first (Z.of_nat (length l))).
Proof.
  intros Hf Hl. unfold slice, relativeIndex.
  destruct (Z.ltb_spec first 0), (Z.ltb_spec last 0); try lia.
  rewrite length_take, length_drop. lia.
Qed.

Lemma lookup_slice {A} (l : list A) (first last : Z) (i : nat) :
  0 <= first -> 0 <= last -> (i < length (slice l first last))%nat ->
  slice l first last !! i = l !! (Z.to_nat first + i)%nat.
Proof.
  intros Hf Hl Hi.
  pose proof (length_slice l first last Hf Hl) as Hlen.
  unfold slice, relativeIndex in *.
  destruct (Z.ltb_spec first 0), (Z.ltb_spec last 0); try lia.
  rewrite lookup_take_lt by (rewrite length_take in Hi; lia).
  rewrite lookup_drop. f_equal. lia.
Qed.

(** X2: the number of rendered rows does not depend on the number of
    rows: it is at most the rows that fit the viewport plus ten. *)
Theorem rendered_rows_bounded {A} (data : list A) (threshold : Z) (loading : bool)
    (scrollTop containerHeight : Q) (w : VirtualState) :
  (0 < containerHeight)%Q ->
  virtualState (length data) threshold loading scrollTop containerHeight = Some w ->
  Z.of_nat (length (visibleRows (Some w) data))
    <= Qceiling (containerHeight / inject_Z ROW_HEIGHT) + 10.
Proof.
  intros Hh Hw.
  destruct (virtualState_Some _ _ _ _ _ _ Hw) as (Hstart & Hend & _ & _).
  pose proof (DataTableSpec.ceiling_of_positive containerHeight Hh) as Hc.
  unfold visibleRows. rewrite length_slice by lia. lia.
Qed.

Lemma rendered_rows_bounded_witness :
  exists w, virtualState 5000 100 false 8200 600 = Some w /\
            Z.of_nat (length (visibleRows (Some w) (replicate 5000 tt))) <= 25.
Proof.
  eexists. split; [reflexivity |].
  pose proof (rendered_rows_bounded (replicate 5000 tt) 100 false 8200 600) as H.
  rewrite length_replicate in H. apply H; reflexivity.
Defined.

(** X3: while the window starts inside the data, the top spacer, the
    rendered rows and the bottom spacer add up to the total height of the
    table, so the scrollable extent is that of the full list. *)
Theorem spacers_preserve_height {A} (data : list A) (threshold : Z) (loading : bool)
    (scrollTop containerHeight : Q) (w : VirtualState) :
  (0 < containerHeight)%Q ->
  virtualState (length data) threshold loading scrollTop containerHeight = Some w ->
  startIndex w <= Z.of_nat (length data) ->
  topSpacer w + Z.of_nat (length (visibleRows (Some w) data)) * ROW_HEIGHT
    + bottomSpacer (length data) w = totalHeight w.
Proof.
  intros Hh Hw Hin.
  destruct (virtualState_Some _ _ _ _ _ _ Hw) as (Hstart & Hend & Hoff & Htot).
  pose proof (DataTableSpec.ceiling_of_positive containerHeight Hh) as Hc.
  unfold visibleRows, topSpacer, bottomSpacer.
  rewrite length_slice by lia. rewrite Hoff, Htot. unfold ROW_HEIGHT.
  destruct (Z.ltb_spec 0 (startIndex w * 41)),
           (Z.ltb_spec (endIndex w) (Z.of_nat (length data))); lia.
Qed.

Lemma spacers_preserve_height_witness :
  exists w, virtualState 1000 100 false 8200 600 = Some w /\
            topSpacer w + Z.of_nat (length (visibleRows (Some w) (replicate 1000 tt))) * ROW_HEIGHT
              + bottomSpacer 1000 w = 41000.
Proof.
  eexists. split; [reflexivity |].
  pose proof (spacers_preserve_height (replicate 1000 tt) 100 false 8200 600) as H.
  rewrite length_replicate in H.
  rewrite H; [reflexivity | reflexivity | reflexivity | vm_compute; discriminate].
Defined.

(** *** Keys of the rendered rows, and selection by key *)

Section Keys.
Context {Val : Type} (String_ : Val -> string).

(** X4: virtualization does not change the key of a row: the keys of the
    rendered rows are the slice of the keys of all rows. *)
Theorem renderedKeys_slice (data : list (Row Val)) (rowKey : option (RowKey Val))
    (threshold : Z) (loading : bool) (scrollTop containerHeight : Q) (w : VirtualState) :
  (0 < containerHeight)%Q ->
  virtualState (length data) threshold loading scrollTop containerHeight = Some w ->
  renderedKeys String_ (Some w) data rowKey =
    slice (rowKeys String_ data rowKey) (startIndex w) (endIndex w) /\
  (forall k, k ∈ renderedKeys String_ (Some w) data rowKey ->
             k ∈ rowKeys String_ data rowKey).
Proof.
  intros Hh Hw.
  destruct (virtualState_Some _ _ _ _ _ _ Hw) as (Hstart & Hend & _ & _).
  pose proof (DataTableSpec.ceiling_of_positive containerHeight Hh) as Hc.
  assert (Hs : 0 <= startIndex w) by lia.
  assert (He : 0 <= endIndex w) by lia.
  assert (Heq : renderedKeys String_ (Some w) data rowKey =
                slice (rowKeys String_ data rowKey) (startIndex w) (endIndex w)).
  { unfold renderedKeys, visibleRows. apply list_eq. intros i.
    rewrite list_lookup_imap.
    assert (Hlen : length (slice (rowKeys String_ data rowKey) (startIndex w) (endIndex w))
                   = length (slice data (startIndex w) (endIndex w))).
    { apply Nat2Z.inj. rewrite !length_slice by lia.
      unfold rowKeys. rewrite length_imap. reflexivity. }
    destruct (decide (i < length (slice data (startIndex w) (endIndex w)))%nat) as [Hi | Hi].
    - rewrite !lookup_slice by lia.
      unfold rowKeys. rewrite list_lookup_imap.
      destruct (data !! (Z.to_nat (startIndex w) + i)%nat); simpl; [| reflexivity].
      do 2 f_equal. lia.
    - rewrite (lookup_ge_None_2 (slice data _ _)) by lia.
      rewrite (lookup_ge_None_2 (slice (rowKeys _ _ _) _ _)) by lia. reflexivity. }
  split; [exact Heq |].
  intros k Hk. rewrite Heq in Hk. unfold slice in Hk.
  apply subseteq_take, subseteq_drop in Hk. exact Hk.
Qed.

(** X5: in multiple mode a click on a row toggles the membership of its
    key and of no other key. *)
Theorem handleSelectRow_multiple (selected0 : list string) (row : Row Val) (index : nat)
    (rowKey : option (RowKey Val)) (k : string) :
  exists result,
    handleSelectRow String_ (Some {| selected := selected0; mode := multiple |})
      row index rowKey = Some result /\
    (k <> getRowKey String_ row index rowKey -> (k ∈ result <-> k ∈ selected0)) /\
    (getRowKey String_ row index rowKey ∈ result <->
     getRowKey String_ row index rowKey ∉ selected0).
Proof.
  unfold handleSelectRow, includes. simpl. eexists. split; [reflexivity |].
  set (key := getRowKey String_ row index rowKey).
  case_bool_decide as Hin; split.
  - intros Hk. rewrite list_elem_of_filter. tauto.
  - rewrite list_elem_of_filter. tauto.
  - intros Hk. rewrite elem_of_app, list_elem_of_singleton. tauto.
  - rewrite elem_of_app, list_elem_of_singleton. tauto.
Qed.

(** X6: in multiple mode a selection without repeated keys stays without
    repeated keys, and selecting a row and clicking it again gives back the
    selection as it was. *)
Theorem handleSelectRow_multiple_undo (selected0 : list string) (row : Row Val)
    (index : nat) (rowKey : option (RowKey Val)) :
  NoDup selected0 ->
  exists result,
    handleSelectRow String_ (Some {| selected := selected0; mode := multiple |})
      row index rowKey = Some result /\
    NoDup result /\
    (getRowKey String_ row index rowKey ∉ selected0 ->
     handleSelectRow String_ (Some {| selected := result; mode := multiple |})
       row index rowKey = Some selected0).
Proof.
  intros Hnd. unfold handleSelectRow, includes. simpl.
  set (key := getRowKey String_ row index rowKey).
  eexists. split; [reflexivity |].
  case_bool_decide as Hin; split.
  - apply NoDup_filter. exact Hnd.
  - intros Hout. contradiction.
  - apply NoDup_app. split; [exact Hnd |]. split; [| apply NoDup_singleton].
    intros x Hx Hx'. apply list_elem_of_singleton in Hx'. subst x. contradiction.
  - intros _. rewrite bool_decide_eq_true_2
      by (apply elem_of_app; right; apply list_elem_of_singleton; reflexivity).
    f_equal. rewrite filter_app.
    rewrite (filter_cons_False _ key []) by (intros H; apply H; reflexivity).
    rewrite filter_nil, app_nil_r.
    clear Hnd. induction selected0 as [| x xs IH]; [reflexivity |].
    rewrite filter_cons_True.
    + f_equal. apply IH. intros H. apply Hin. apply elem_of_cons. now right.
    + intros ->. apply Hin. apply elem_of_cons. now left.
Qed.


(** X8: the header checkbox is checked exactly when there is at least one
    row and every row key is selected; after a select-all that selected
    the rows, a second select-all clears the selection. *)
Theorem selectAll_twice (sel : Selection) (data : list (Row Val))
    (rowKey : option (RowKey Val)) :
  (isAllSelected String_ (Some sel) data rowKey = true <->
   data <> [] /\ forall k, k ∈ rowKeys String_ data rowKey -> k ∈ selected sel) /\
  (data <> [] ->
   handleSelectAll String_
     (Some {| selected := rowKeys String_ data rowKey; mode := mode sel |}) data rowKey
   = Some []).
Proof.
  split.
  - unfold isAllSelected. destruct data as [| row rest].
    + simpl. split; [discriminate | intros [H _]; congruence].
    + change (Nat.eqb (length (row :: rest)) 0) with false. cbv iota.
      rewrite DataTableSpec.every_key_selected. split.
      * intros H. split; [discriminate | exact H].
      * intros [_ H]. exact H.
  - intros Hne. unfold handleSelectAll, isAllSelected.
    destruct data as [| row rest]; [congruence |].
    change (Nat.eqb (length (row :: rest)) 0) with false. cbv iota.
    cbn [selected].
    rewrite (proj2 (DataTableSpec.every_key_selected String_ _ _ _));
      [reflexivity | intros k Hk; exact Hk].
Qed.


End Keys.

Lemma renderedKeys_slice_witness :
  let data : list (Row string) := replicate 150 ∅ in
  exists w, virtualState (length data) 100 false 4100 600 = Some w /\
            forall k, k ∈ renderedKeys (fun s => s) (Some w) data None ->
                      k ∈ rowKeys (fun s => s) data None.
Proof.
  intros data. eexists. split; [reflexivity |].
  apply (renderedKeys_slice (fun s : string => s) data None 100 false 4100 600);
    reflexivity.
Defined.

Lemma handleSelectRow_multiple_undo_witness :
  exists result,
    handleSelectRow (fun s : string => s)
      (Some {| selected := ["a"; "b"]; mode := multiple |})
      {[ "id" := defined "c" ]} 0 None = Some result /\
    NoDup result /\
    handleSelectRow (fun s : string => s) (Some {| selected := result; mode := multiple |})
      {[ "id" := defined "c" ]} 0 None = Some ["a"; "b"].
Proof.
  destruct (handleSelectRow_multiple_undo (fun s : string => s) ["a"; "b"]
              {[ "id" := defined "c" ]} 0 None) as (result & Hr & Hnd & Hundo).
  - apply NoDup_cons. split.
    + intros H. apply list_elem_of_singleton in H. discriminate H.
    + apply NoDup_singleton.
  - exists result. split; [exact Hr |]. split; [exact Hnd |]. apply Hundo.
    vm_compute. intros H.
    apply elem_of_cons in H as [H | H]; [discriminate H |].
    apply list_elem_of_singleton in H. discriminate H.
Defined.

Lemma handleSelectRow_multiple_witness :
  exists result,
    handleSelectRow (fun s : string => s)
      (Some {| selected := ["a"; "b"]; mode := multiple |})
      {[ "id" := defined "b" ]} 1 None = Some result /\
    ("a" ∈ result <-> "a" ∈ ["a"; "b"]).
Proof.
  destruct (handleSelectRow_multiple (fun s : string => s) ["a"; "b"]
              {[ "id" := defined "b" ]} 1 None "a") as (result & Hr & Hother & _).
  exists result. split; [exact Hr |]. apply Hother. vm_compute. discriminate.
Defined.


Lemma selectAll_twice_witness :
  let data : list (Row string) := [ {[ "id" := defined "1" ]}; {[ "id" := defined "2" ]} ] in
  handleSelectAll (fun s : string => s)
    (Some {| selected := rowKeys (fun s : string => s) data None; mode := multiple |})
    data None = Some [].
Proof.
  intros data.
  pose proof (selectAll_twice (fun s : string => s)
                {| selected := []; mode := multiple |} data None) as (_ & H).
  apply H. discriminate.
Defined.


(** *** Pagination *)

(** The number of pages is the least count of pages that holds every
    item. *)
Lemma totalPages_bounds (p : Pagination) :
  0 < pageSize p ->
  (totalPages (Some p) - 1) * pageSize p < total p <= totalPages (Some p) * pageSize p.
Proof.
  intros Hs. unfold totalPages.
  set (x := (inject_Z (total p) / inject_Z (pageSize p))%Q).
  assert (Hq : (0 < inject_Z (pageSize p))%Q)
    by (change 0%Q with (inject_Z 0); rewrite <- Zlt_Qlt; exact Hs).
  pose proof (Qle_ceiling x) as Hle.
  pose proof (Qceiling_lt x) as Hlt.
  assert (E : (x * inject_Z (pageSize p) == inject_Z (total p))%Q).
  { subst x. field. intros H0. rewrite H0 in Hq. discriminate Hq. }
  split.
  - assert (H : (inject_Z ((Qceiling x - 1) * pageSize p) < inject_Z (total p))%Q).
    { rewrite inject_Z_mult, <- E. apply Qmult_lt_r; [exact Hq | exact Hlt]. }
    rewrite <- Zlt_Qlt in H. exact H.
  - assert (H : (inject_Z (total p) <= inject_Z (Qceiling x * pageSize p))%Q).
    { rewrite inject_Z_mult, <- E. apply Qmult_le_r; [exact Hq | exact Hle]. }
    rewrite <- Zle_Qle in H. exact H.
Qed.

(** X10: on a page of the range 1..totalPages the displayed item numbers
    are in order and within the total, a page that is not the last one
    shows exactly pageSize items and the next page starts right after it,
    and the last page ends at the total. *)
Theorem pagination_item_range (p : Pagination) :
  0 < pageSize p -> 1 <= page p <= totalPages (Some p) ->
  1 <= startItem p <= endItem p /\ endItem p <= total p /\
  endItem p - startItem p + 1 <= pageSize p /\
  (page p < totalPages (Some p) ->
   endItem p - startItem p + 1 = pageSize p /\
   startItem {| page := page p + 1; pageSize := pageSize p; total := total p |}
     = endItem p + 1) /\
  (page p = totalPages (Some p) -> endItem p = total p).
Proof.
  intros Hs Hp. pose proof (totalPages_bounds p Hs) as Hb.
  unfold startItem, endItem. cbn [page pageSize total].
  set (n := totalPages (Some p)) in *.
  assert (Hfull : page p < n -> page p * pageSize p <= total p) by nia.
  assert (Hany : (page p - 1) * pageSize p + 1 <= total p) by nia.
  split; [nia |]. split; [lia |]. split; [nia |]. split.
  - intros Hlt. specialize (Hfull Hlt). split; lia.
  - intros Heq. rewrite Heq. lia.
Qed.

Lemma pagination_item_range_witness :
  let p := {| page := 5; pageSize := 10; total := 47 |} in
  totalPages (Some p) = 5 /\ startItem p = 41 /\ endItem p = 47.
Proof.
  intros p.
  destruct (pagination_item_range p) as (_ & _ & _ & _ & Hlast);
    [reflexivity | vm_compute; split; discriminate |].
  split; [reflexivity |]. split; [reflexivity |]. apply Hlast. reflexivity.
Defined.

(** X11: with no items the table has 0 pages: page 1 displays the range
    1-0 and all four navigation buttons are disabled. *)
Theorem pagination_without_items (size : Z) (b : NavButton) :
  0 < size ->
  let p := {| page := 1; pageSize := size; total := 0 |} in
  totalPages (Some p) = 0 /\ startItem p = 1 /\ endItem p = 0 /\ clickNav p b = None.
Proof.
  intros Hs p.
  pose proof (totalPages_bounds p Hs) as Hb.
  change (pageSize p) with size in Hb. change (total p) with 0 in Hb.
  assert (Hn : totalPages (Some p) = 0) by nia.
  split; [exact Hn |]. unfold startItem, endItem, clickNav, navDisabled. rewrite Hn.
  change (page p) with 1. change (pageSize p) with size. change (total p) with 0.
  split; [lia |]. split; [lia |]. destruct b; reflexivity.
Qed.

Lemma pagination_without_items_witness :
  clickNav {| page := 1; pageSize := 25; total := 0 |} nextPage = None.
Proof. apply (pagination_without_items 25 nextPage). lia. Defined.

(** X12: on a page of the range 1..totalPages a navigation button that
    is enabled asks for another page of that range: first and previous are
    disabled on page 1, next and last on the last page. *)
Theorem navigation_stays_in_range (p : Pagination) (b : NavButton) (target : Z) :
  0 < pageSize p -> 1 <= page p <= totalPages (Some p) ->
  clickNav p b = Some target ->
  1 <= target <= totalPages (Some p) /\ target <> page p.
Proof.
  intros Hs Hp. unfold clickNav, navDisabled, navTarget.
  set (n := totalPages (Some p)) in *.
  destruct b.
  - destruct (Z.leb_spec (page p) 1); [discriminate |]. intros Hc; injection Hc as <-. lia.
  - destruct (Z.leb_spec (page p) 1); [discriminate |]. intros Hc; injection Hc as <-. lia.
  - destruct (Z.leb_spec n (page p)); [discriminate |]. intros Hc; injection Hc as <-. lia.
  - destruct (Z.leb_spec n (page p)); [discriminate |]. intros Hc; injection Hc as <-. lia.
Qed.

Lemma navigation_stays_in_range_witness :
  let p := {| page := 2; pageSize := 10; total := 47 |} in
  clickNav p lastPage = Some 5 /\ 1 <= 5 <= totalPages (Some p).
Proof.
  intros p. split; [reflexivity |].
  apply (navigation_stays_in_range p lastPage 5);
    [reflexivity | vm_compute; split; discriminate | reflexivity].
Defined.

End DataTableRows.

(** ** More on the order of numbers *)

Module NumberOrder.
Import JsNumber NumberFacts.

Lemma lt_le_trans (x y z : number) : lt x y = true -> le y z = true -> lt x z = true.
Proof.
  unfold lt, le, SFltb, SFleb.
  destruct x as [a | a | | a m e], y as [b | b | | b n f], z as [c | c | | c o g];
    simpl; try discriminate; try reflexivity;
    try destruct a; try destruct b; try destruct c; simpl;
    try discriminate; try reflexivity;
    intros H1 H2; order_cases; simpl in *;
    try discriminate; try reflexivity; try lia.
Qed.

Lemma le_lt_trans (x y z : number) : le x y = true -> lt y z = true -> lt x z = true.
Proof.
  unfold lt, le, SFltb, SFleb.
  destruct x as [a | a | | a m e], y as [b | b | | b n f], z as [c | c | | c o g];
    simpl; try discriminate; try reflexivity;
    try destruct a; try destruct b; try destruct c; simpl;
    try discriminate; try reflexivity;
    intros H1 H2; order_cases; simpl in *;
    try discriminate; try reflexivity; try lia.
Qed.

End NumberOrder.

(** ** The vitals utilities: ranges and conversions together *)

Module VitalsRanges.
Import JsNumber Vitals Notions Checks NumberFacts NumberOrder.

(** In every entry of the table the normal bounds lie within the absolute
    ones. *)
Lemma normal_within_absolute (k : string) (r : RangeSpec) (a b : literal) :
  VITAL_RANGES !! k = Some r -> normalMin r = Some a -> normalMax r = Some b ->
  le (value (min r)) (value a) = true /\ le (value a) (value b) = true /\
  le (value b) (value (max r)) = true.
Proof.
  intros H Ha Hb. VitalsSpec.each_entry H; simpl in Ha, Hb; try discriminate;
    injection Ha as <-; injection Hb as <-; repeat split; vm_compute; reflexivity.
Qed.

(** X13: a value that fails validation is never classified as normal:
    for a field with normal bounds it is low when below the minimum and
    high when above the maximum. *)
Theorem rejected_value_is_abnormal (f : string) (x : number) (u : option string) :
  validateVitalValue f (Some x) u <> None ->
  isValueNormal f x u <> normal /\
  (forall r, VITAL_RANGES !! rangeKeyOf f u = Some r -> normalMin r <> None ->
     (lt x (value (min r)) = true -> isValueNormal f x u = low) /\
     (gt x (value (max r)) = true -> isValueNormal f x u = high)).
Proof.
  intros Hv.
  assert (Hcase : forall r, VITAL_RANGES !! rangeKeyOf f u = Some r -> normalMin r <> None ->
     (lt x (value (min r)) = true -> isValueNormal f x u = low) /\
     (gt x (value (max r)) = true -> isValueNormal f x u = high)).
  { intros r Hr Hn. destruct (normalMin r) as [a |] eqn:Ha; [| congruence].
    destruct (VitalsSpec.normal_bounds_ordered _ _ _ Hr Ha) as (b & Hb & Hab).
    destruct (normal_within_absolute _ _ _ _ Hr Ha Hb) as (H1 & _ & H3).
    unfold isValueNormal. rewrite (VitalsSpec.getRange_own _ _ Hr), Ha, Hb. split.
    - intros Hlt. rewrite (lt_le_trans _ _ _ Hlt H1). reflexivity.
    - intros Hgt. change (gt x (value (max r))) with (lt (value (max r)) x) in Hgt.
      change (gt x (value b)) with (lt (value b) x).
      pose proof (le_lt_trans _ _ _ H3 Hgt) as Hhigh.
      pose proof (le_lt_trans _ _ _ Hab Hhigh) as Hnotlow.
      rewrite (lt_not_gt _ _ Hnotlow), Hhigh. reflexivity. }
  split; [| exact Hcase].
  unfold validateVitalValue in Hv. destruct (isNaN x); [congruence |].
  destruct (VITAL_RANGES !! rangeKeyOf f u) as [r |] eqn:Hr.
  - rewrite (VitalsSpec.getRange_own _ _ Hr) in Hv.
    destruct (normalMin r) as [a |] eqn:Ha.
    + destruct (Hcase r eq_refl) as [Hlo Hhi]; [congruence |].
      destruct (lt x (value (min r))) eqn:E1.
      * rewrite Hlo by reflexivity. discriminate.
      * destruct (gt x (value (max r))) eqn:E2; [| simpl in Hv; congruence].
        rewrite Hhi by reflexivity. discriminate.
    + unfold isValueNormal. rewrite (VitalsSpec.getRange_own _ _ Hr), Ha. discriminate.
  - destruct (VitalsSpec.getRange_not_own _ Hr) as [E | E]; rewrite E in Hv; congruence.
Qed.

Lemma rejected_value_is_abnormal_witness :
  isValueNormal "oxygenSaturation" (ofZ 60) None = low.
Proof.
  destruct (rejected_value_is_abnormal "oxygenSaturation" (ofZ 60) None) as [_ H];
    [vm_compute; discriminate |].
  destruct (H (range (int 70) (int 100) (int 95) (int 100) "%")) as [Hlo _];
    [vm_compute; reflexivity | discriminate |].
  apply Hlo. vm_compute. reflexivity.
Defined.

(** *** One-decimal values through the conversions *)

Lemma Zrange_covers (lo : Z) (count : nat) (n : Z) :
  lo <= n < lo + Z.of_nat count -> In n (Zrange lo count).
Proof.
  intros H. apply in_map_iff. exists (Z.to_nat (n - lo)). split; [lia |].
  apply in_seq. lia.
Qed.

Lemma checked_on_range (check : Z -> bool) (lo hi : Z) :
  forallb check (Zrange lo (Z.to_nat (hi - lo + 1))) = true ->
  forall n, lo <= n <= hi -> check n = true.
Proof.
  intros Hall n Hn. rewrite forallb_forall in Hall. apply Hall.
  apply Zrange_covers. lia.
Qed.

Lemma convertsCleanly_spec convert (f unit1 unit2 : string) (n : Z) :
  convertsCleanly convert f unit1 unit2 n = true ->
  convert (convert (dec n 1) unit1) unit2 = dec n 1 /\
  gt (dec n 1) (ofZ 0) = true /\ gt (convert (dec n 1) unit1) (ofZ 0) = true /\
  validateVitalValue f (Some (convert (dec n 1) unit1)) (Some unit2) = None.
Proof.
  unfold convertsCleanly. cbv zeta. intros H.
  apply andb_prop in H as [H Hvalid]. apply andb_prop in H as [H Hy].
  apply andb_prop in H as [Hsame Hx].
  split; [apply VitalsSpec.same_eq; exact Hsame |]. split; [exact Hx |].
  split; [exact Hy |].
  destruct (validateVitalValue f (Some (convert (dec n 1) unit1)) (Some unit2));
    [discriminate | reflexivity].
Qed.

Lemma celsius_checked (n : Z) :
  322 <= n <= 433 -> convertsCleanly convertTemperature "temperature" "C" "F" n = true.
Proof.
  apply (checked_on_range (convertsCleanly convertTemperature "temperature" "C" "F") 322 433).
  vm_compute. reflexivity.
Qed.

Lemma inches_checked (n : Z) :
  100 <= n <= 1080 -> convertsCleanly convertHeight "height" "in" "cm" n = true.
Proof.
  apply (checked_on_range (convertsCleanly convertHeight "height" "in" "cm") 100 1080).
  vm_compute. reflexivity.
Qed.

(** X14: a valid Celsius temperature with one decimal, from 32.2 to 43.3,
    converted to Fahrenheit and back is the same number again. *)
Theorem celsius_round_trip_exact (n : Z) :
  322 <= n <= 433 ->
  convertTemperature (convertTemperature (dec n 1) "C") "F" = dec n 1.
Proof.
  intros Hn.
  apply (convertsCleanly_spec convertTemperature "temperature"), celsius_checked, Hn.
Qed.

Lemma celsius_round_trip_exact_witness :
  convertTemperature (convertTemperature (dec 371 1) "C") "F" = dec 371 1.
Proof. apply (celsius_round_trip_exact 371). lia. Defined.

(** X15: a valid height in inches with one decimal, from 10.0 to 108.0,
    converted to centimetres and back is the same number again. *)
Theorem inches_round_trip_exact (n : Z) :
  100 <= n <= 1080 ->
  convertHeight (convertHeight (dec n 1) "in") "cm" = dec n 1.
Proof.
  intros Hn. apply (convertsCleanly_spec convertHeight "height"), inches_checked, Hn.
Qed.

Lemma inches_round_trip_exact_witness :
  convertHeight (convertHeight (dec 685 1) "in") "cm" = dec 685 1.
Proof. apply (inches_round_trip_exact 685). lia. Defined.

Lemma staysValid_iff convert (f unit1 unit2 : string) (n : Z) :
  staysValid convert f unit1 unit2 n = true <->
  validateVitalValue f (Some (convert (dec n 1) unit1)) (Some unit2) = None.
Proof.
  unfold staysValid.
  destruct (validateVitalValue f (Some (convert (dec n 1) unit1)) (Some unit2));
    split; try reflexivity; discriminate.
Qed.

(** X16: a one-decimal temperature within the absolute range of its unit
    is, once converted, within the absolute range of the other unit, in
    both directions; so is a valid height converted from inches to
    centimetres. *)
Theorem conversion_keeps_validity (n : Z) :
  (900 <= n <= 1100 ->
   validateVitalValue "temperature" (Some (convertTemperature (dec n 1) "F")) (Some "C")
     = None) /\
  (322 <= n <= 433 ->
   validateVitalValue "temperature" (Some (convertTemperature (dec n 1) "C")) (Some "F")
     = None) /\
  (100 <= n <= 1080 ->
   validateVitalValue "height" (Some (convertHeight (dec n 1) "in")) (Some "cm") = None).
Proof.
  split; [| split]; intros Hn.
  - apply staysValid_iff.
    apply (checked_on_range (staysValid convertTemperature "temperature" "F" "C") 900 1100);
      [vm_compute; reflexivity | lia].
  - apply (convertsCleanly_spec convertTemperature "temperature"), celsius_checked, Hn.
  - apply (convertsCleanly_spec convertHeight "height"), inches_checked, Hn.
Qed.

Lemma conversion_keeps_validity_witness :
  validateVitalValue "temperature" (Some (convertTemperature (dec 986 1) "F")) (Some "C")
    = None.
Proof.
  pose proof (conversion_keeps_validity 986) as (H & _). apply H. lia.
Defined.

(** X17: the other two directions do not keep validity.  Among the valid
    weights from 990.0 to 1000.0 lb only those up to 992.1 lb convert to a
    valid weight in kilograms; among the valid heights from 25.0 to 26.0 cm
    only those from 25.3 cm convert to a valid height in inches, and among
    those from 274.0 to 275.0 cm only those up to 274.4 cm. *)
Theorem conversion_loses_validity (n : Z) :
  (9900 <= n <= 10000 ->
   (validateVitalValue "weight" (Some (convertWeight (dec n 1) "lb")) (Some "kg") = None
    <-> n <= 9921)) /\
  (250 <= n <= 260 ->
   (validateVitalValue "height" (Some (convertHeight (dec n 1) "cm")) (Some "in") = None
    <-> 253 <= n)) /\
  (2740 <= n <= 2750 ->
   (validateVitalValue "height" (Some (convertHeight (dec n 1) "cm")) (Some "in") = None
    <-> n <= 2744)).
Proof.
  split; [| split]; intros Hn; rewrite <- staysValid_iff.
  - pose proof (checked_on_range
      (fun k => Bool.eqb (staysValid convertWeight "weight" "lb" "kg" k) (k <=? 9921))
      9900 10000 ltac:(vm_compute; reflexivity) n Hn) as H.
    apply Bool.eqb_prop in H. rewrite H. apply Z.leb_le.
  - pose proof (checked_on_range
      (fun k => Bool.eqb (staysValid convertHeight "height" "cm" "in" k) (253 <=? k))
      250 260 ltac:(vm_compute; reflexivity) n Hn) as H.
    apply Bool.eqb_prop in H. rewrite H. apply Z.leb_le.
  - pose proof (checked_on_range
      (fun k => Bool.eqb (staysValid convertHeight "height" "cm" "in" k) (k <=? 2744))
      2740 2750 ltac:(vm_compute; reflexivity) n Hn) as H.
    apply Bool.eqb_prop in H. rewrite H. apply Z.leb_le.
Qed.

Lemma conversion_loses_validity_witness :
  validateVitalValue "weight" (Some (convertWeight (ofZ 1000) "lb")) (Some "kg") <> None.
Proof.
  pose proof (conversion_loses_validity 10000) as (H & _).
  intros Hv. change (ofZ 1000) with (dec 10000 1) in Hv.
  apply H in Hv; lia.
Defined.

End VitalsRanges.

(** ** The vitals form: unit toggles, error display, BMI *)

Module VitalSignsInputForm.
Import JsNumber Vitals VitalSignsInput Checks NumberFacts.

(** X18: toggling a unit twice gives back the very same record when the
    value is valid, in the finer unit and has one decimal: Celsius from
    32.2 to 43.3, inches from 10.0 to 108.0. *)
Theorem toggle_twice_restores (vitals : VitalSigns) (n : Z) :
  (temperatureUnit vitals = "C" -> temperature vitals = dec n 1 -> 322 <= n <= 433 ->
   toggleTempUnit (toggleTempUnit vitals) = vitals) /\
  (heightUnit vitals = "in" -> height vitals = dec n 1 -> 100 <= n <= 1080 ->
   toggleHeightUnit (toggleHeightUnit vitals) = vitals).
Proof.
  destruct vitals as [sys dia hr temp tu rr ox w wu h hu pain]. simpl.
  split; intros -> -> Hn.
  - destruct (VitalsRanges.convertsCleanly_spec _ _ _ _ _ (VitalsRanges.celsius_checked n Hn))
      as (Hback & H1 & H2 & _).
    unfold toggleTempUnit. cbn [temperature temperatureUnit].
    change (bool_decide ("C" = "F")) with false. cbv iota.
    change (bool_decide ("F" = "F")) with true. cbv iota.
    rewrite H1, H2, Hback. reflexivity.
  - destruct (VitalsRanges.convertsCleanly_spec _ _ _ _ _ (VitalsRanges.inches_checked n Hn))
      as (Hback & H1 & H2 & _).
    unfold toggleHeightUnit. cbn [height heightUnit].
    change (bool_decide ("in" = "in")) with true. cbv iota.
    change (bool_decide ("cm" = "in")) with false. cbv iota.
    rewrite H1, H2, Hback. reflexivity.
Qed.

Lemma toggle_twice_restores_witness :
  let vitals := {|
    bloodPressureSystolic := ofZ 120; bloodPressureDiastolic := ofZ 80;
    heartRate := ofZ 72; temperature := dec 371 1; temperatureUnit := "C";
    respiratoryRate := ofZ 16; oxygenSaturation := ofZ 98;
    weight := dec 723 1; weightUnit := "kg";
    height := dec 685 1; heightUnit := "in"; painLevel := ofZ 2 |} in
  toggleTempUnit (toggleTempUnit vitals) = vitals /\
  toggleHeightUnit (toggleHeightUnit vitals) = vitals.
Proof.
  intros vitals.
  pose proof (toggle_twice_restores vitals 371) as (H1 & _).
  pose proof (toggle_twice_restores vitals 685) as (_ & H3).
  split; [apply H1; [reflexivity | reflexivity | lia] |].
  apply H3; [reflexivity | reflexivity | lia].
Defined.

(** *** What the validation pass records *)

(** An error carries the name of the field it was asked about. *)
Lemma validateVitalValue_field (f : string) (v : option number) (u : option string)
    (err : ValidationError) :
  validateVitalValue f v u = Some err -> field err = f.
Proof.
  unfold validateVitalValue. destruct v as [x |]; [| discriminate].
  destruct (isNaN x); [discriminate |].
  destruct (getRange (rangeKeyOf f u)); try discriminate.
  destruct (_ || _); [| discriminate]. intros H. injection H as <-. reflexivity.
Qed.

Lemma validateEntry_step (acc : accumulators) (e : entry) :
  validateEntry acc e =
    match entryError e with
    | Some err => (acc.1 ++ [err], <[e.1.1 := message err]> (acc.2))
    | None => acc
    end.
Proof.
  destruct e as [[f v] u]. unfold validateEntry, entryError. cbn [fst snd].
  destruct (strictEq v (ofZ 0)); reflexivity.
Qed.

(** The array of errors is filled in the order of the fields. *)
Lemma validationErrors_in_order (es : list entry) (acc : accumulators) :
  (fold_left validateEntry es acc).1 = acc.1 ++ omap entryError es.
Proof.
  revert acc. induction es as [| e es IH]; intros acc; cbn [fold_left].
  - simpl. rewrite app_nil_r. reflexivity.
  - rewrite IH, validateEntry_step. simpl omap.
    destruct (entryError e) as [err |]; simpl; [| reflexivity].
    rewrite <- app_assoc. reflexivity.
Qed.

Lemma newErrors_untouched (es : list entry) (acc : accumulators) (f : string) :
  (forall v u, (f, v, u) ∉ es) ->
  (fold_left validateEntry es acc).2 !! f = acc.2 !! f.
Proof.
  revert acc. induction es as [| [[f0 v0] u0] es IH]; intros acc Hout; cbn [fold_left].
  - reflexivity.
  - rewrite IH by (intros v u H; apply (Hout v u); apply elem_of_cons; now right).
    rewrite validateEntry_step. destruct (entryError (f0, v0, u0)); [| reflexivity].
    simpl. apply lookup_insert_ne. intros ->. apply (Hout v0 u0).
    apply elem_of_cons. now left.
Qed.

Lemma entry_name_in (es : list entry) f v u :
  (f, v, u) ∈ es -> f ∈ List.map (fun e : entry => e.1.1) es.
Proof.
  intros Hin. apply list_elem_of_In. apply list_elem_of_In in Hin.
  exact (in_map (fun e : entry => e.1.1) es (f, v, u) Hin).
Qed.

Lemma newErrors_of_entry (es : list entry) (acc : accumulators) f v u :
  NoDup (List.map (fun e : entry => e.1.1) es) -> (f, v, u) ∈ es ->
  (fold_left validateEntry es acc).2 !! f =
    match entryError (f, v, u) with
    | Some err => Some (message err)
    | None => acc.2 !! f
    end.
Proof.
  revert acc. induction es as [| [[f0 v0] u0] es IH]; intros acc Hnd Hin.
  - apply elem_of_nil in Hin. destruct Hin.
  - simpl in Hnd. apply NoDup_cons in Hnd as [Hf0 Hnd]. cbn [fold_left].
    apply elem_of_cons in Hin as [Heq | Hin].
    + injection Heq as -> -> ->.
      rewrite newErrors_untouched.
      * rewrite validateEntry_step. destruct (entryError (f0, v0, u0)); [| reflexivity].
        simpl. apply lookup_insert_eq.
      * intros v u Hin. apply Hf0. exact (entry_name_in _ _ _ _ Hin).
    + rewrite (IH _ Hnd Hin). destruct (entryError (f, v, u)); [reflexivity |].
      rewrite validateEntry_step. destruct (entryError (f0, v0, u0)); [| reflexivity].
      simpl. apply lookup_insert_ne. intros ->. apply Hf0.
      exact (entry_name_in _ _ _ _ Hin).
Qed.

Lemma fieldsToValidate_names (vitals : VitalSigns) :
  NoDup (List.map (fun e : entry => e.1.1) (fieldsToValidate vitals)).
Proof.
  unfold fieldsToValidate. simpl.
  repeat (apply NoDup_cons; split;
          [intros H; repeat (apply elem_of_cons in H as [H | H]; [discriminate H |]);
           apply elem_of_nil in H; exact H |]).
  apply NoDup_nil. exact I.
Qed.

(** X19: after the validation pass the error kept for a field is the
    message of that field's own value, and there is none for a zero value
    or a value within range; the errors reported to the callback are those
    of the non-zero fields in the order of the fields, and the callback is
    never called with an empty list. *)
Theorem runValidation_exact (vitals : VitalSigns) (hasCallback : bool) :
  (forall f v u, (f, v, u) ∈ fieldsToValidate vitals ->
     (runValidation vitals hasCallback).1 !! f = message <$> entryError (f, v, u)) /\
  (forall errs, (runValidation vitals hasCallback).2 = Some errs ->
     errs = omap entryError (fieldsToValidate vitals) /\ errs <> [] /\ hasCallback = true) /\
  (hasCallback = true -> omap entryError (fieldsToValidate vitals) <> [] ->
   (runValidation vitals hasCallback).2 = Some (omap entryError (fieldsToValidate vitals))).
Proof.
  pose proof (validationErrors_in_order (fieldsToValidate vitals) ([], ∅)) as Herrs.
  pose proof (fun f v u => newErrors_of_entry (fieldsToValidate vitals) ([], ∅) f v u
                             (fieldsToValidate_names vitals)) as Hmap.
  fold (validateAll (fieldsToValidate vitals)) in Herrs, Hmap.
  unfold runValidation.
  destruct (validateAll (fieldsToValidate vitals)) as [errs newErrors].
  cbn [fst snd] in *. rewrite app_nil_l in Herrs. subst errs.
  split; [| split].
  - intros f v u Hin. rewrite (Hmap f v u Hin).
    destruct (entryError (f, v, u)); [reflexivity | apply lookup_empty].
  - clear Hmap. generalize (omap entryError (fieldsToValidate vitals)).
    intros [| e es] errs H; destruct hasCallback; try discriminate H.
    injection H as <-. repeat split. discriminate.
  - clear Hmap. generalize (omap entryError (fieldsToValidate vitals)).
    intros [| e es] -> Hne; [congruence | reflexivity].
Qed.

Lemma runValidation_exact_witness :
  let vitals := {|
    bloodPressureSystolic := ofZ 120; bloodPressureDiastolic := ofZ 80;
    heartRate := ofZ 300; temperature := ofZ 0; temperatureUnit := "F";
    respiratoryRate := ofZ 16; oxygenSaturation := ofZ 98;
    weight := ofZ 0; weightUnit := "lb";
    height := ofZ 0; heightUnit := "in"; painLevel := ofZ 0 |} in
  (runValidation vitals true).1 !! "heartRate"
    = Some "heartRate must be between 30 and 250 bpm" /\
  (runValidation vitals true).1 !! "temperature" = None.
Proof.
  intros vitals.
  pose proof (runValidation_exact vitals true) as (H & _).
  split.
  - rewrite (H "heartRate" (ofZ 300) None); [vm_compute; reflexivity |].
    unfold fieldsToValidate. do 2 (apply elem_of_cons; right). apply elem_of_cons. now left.
  - rewrite (H "temperature" (ofZ 0) (Some "F")); [vm_compute; reflexivity |].
    unfold fieldsToValidate. do 3 (apply elem_of_cons; right). apply elem_of_cons. now left.
Defined.

(** *** The style of an input *)

Lemma error_message_not_empty (f : string) (v : option number) (u : option string)
    (err : ValidationError) :
  validateVitalValue f v u = Some err -> String.eqb (message err) EmptyString = false.
Proof.
  unfold validateVitalValue. destruct v as [x |]; [| discriminate].
  destruct (isNaN x); [discriminate |].
  destruct (getRange (rangeKeyOf f u)) as [r | |]; try discriminate.
  destruct (_ || _); [| discriminate]. intros H. injection H as <-.
  cbn [message]. unfold rangeMessage. destruct f; reflexivity.
Qed.

(** X20: once the validation pass has run, an input carries the error
    style exactly when its own non-zero value fails validation; a value
    that passes carries the low or high style when it is classified so,
    and otherwise, as for a zero value, the plain style. *)
Theorem input_style_follows_validation (vitals : VitalSigns) (hasCallback : bool)
    (f : string) (v : number) (u : option string) :
  (f, v, u) ∈ fieldsToValidate vitals ->
  let errors := (runValidation vitals hasCallback).1 in
  getInputClassName vitals errors f u =
    (if falsy v || strictEq v (ofZ 0) then input
     else match validateVitalValue f (Some v) u with
          | Some _ => inputError
          | None =>
              match isValueNormal f v u with
              | low => inputAbnormalLow
              | high => inputAbnormalHigh
              | _ => input
              end
          end) /\
  (getInputClassName vitals errors f u = inputError <->
   strictEq v (ofZ 0) = false /\ validateVitalValue f (Some v) u <> None).
Proof.
  intros Hin errors.
  pose proof (runValidation_exact vitals hasCallback) as (Hmap & _).
  specialize (Hmap f v u Hin). fold errors in Hmap.
  assert (Hclass : getInputClassName vitals errors f u =
    (if falsy v || strictEq v (ofZ 0) then input
     else match validateVitalValue f (Some v) u with
          | Some _ => inputError
          | None =>
              match isValueNormal f v u with
              | low => inputAbnormalLow
              | high => inputAbnormalHigh
              | _ => input
              end
          end)).
  { unfold getInputClassName.
    rewrite (VitalSignsInputSpec.numberOf_entry _ _ _ _ Hin), Hmap.
    destruct (falsy v || strictEq v (ofZ 0)) eqn:E; [reflexivity |].
    apply orb_false_elim in E as [_ Ez]. unfold entryError. rewrite Ez.
    destruct (validateVitalValue f (Some v) u) as [err |] eqn:Ev; simpl.
    - rewrite (error_message_not_empty _ _ _ _ Ev). reflexivity.
    - reflexivity. }
  split; [exact Hclass |]. rewrite Hclass.
  destruct (strictEq v (ofZ 0)) eqn:Ez.
  - rewrite orb_true_r. split; [discriminate | intros [H _]; discriminate H].
  - rewrite orb_false_r. destruct (falsy v) eqn:Ef.
    + split; [discriminate |]. intros [_ Hv]. exfalso. apply Hv.
      destruct v; try discriminate Ef; [vm_compute in Ez; discriminate Ez | reflexivity].
    + destruct (validateVitalValue f (Some v) u) eqn:Ev.
      * split; [intros _; split; [reflexivity | discriminate] | reflexivity].
      * split; [| intros [_ H]; congruence].
        destruct (isValueNormal f v u); discriminate.
Qed.

Lemma input_style_follows_validation_witness :
  let vitals := {|
    bloodPressureSystolic := ofZ 120; bloodPressureDiastolic := ofZ 80;
    heartRate := ofZ 300; temperature := ofZ 0; temperatureUnit := "F";
    respiratoryRate := ofZ 16; oxygenSaturation := ofZ 91;
    weight := ofZ 0; weightUnit := "lb";
    height := ofZ 0; heightUnit := "in"; painLevel := ofZ 0 |} in
  getInputClassName vitals (runValidation vitals false).1 "heartRate" None = inputError /\
  getInputClassName vitals (runValidation vitals false).1 "oxygenSaturation" None
    = inputAbnormalLow.
Proof.
  intros vitals. split.
  - apply (input_style_follows_validation vitals false "heartRate" (ofZ 300) None).
    + unfold fieldsToValidate. do 2 (apply elem_of_cons; right). apply elem_of_cons. now left.
    + split; [reflexivity | vm_compute; discriminate].
  - destruct (input_style_follows_validation vitals false "oxygenSaturation" (ofZ 91) None)
      as [H _].
    + unfold fieldsToValidate. do 5 (apply elem_of_cons; right). apply elem_of_cons. now left.
    + rewrite H. vm_compute. reflexivity.
Defined.

(** *** The BMI shown *)

(** X21: no BMI is shown while the weight or the height is unset, or
    not above zero once in kilograms and centimetres; otherwise the BMI
    is the rounded quotient of the two, the guard of calculateBMI never
    applies, and a category is shown unless the BMI is 0 or NaN. *)
Theorem bmi_shown (vitals : VitalSigns) :
  (strictEq (weight vitals) (ofZ 0) = true \/ strictEq (height vitals) (ofZ 0) = true ->
   bmi vitals = None /\ bmiCategory vitals = None) /\
  (bmi vitals = None <->
   gt (weightKg vitals) (ofZ 0) = false \/ gt (heightCm vitals) (ofZ 0) = false) /\
  (gt (weightKg vitals) (ofZ 0) = true -> gt (heightCm vitals) (ofZ 0) = true ->
   let heightM := div (heightCm vitals) (ofZ 100) in
   bmi vitals = Some (toFixed1 (div (weightKg vitals) (mul heightM heightM)))) /\
  (forall b, bmi vitals = Some b ->
     bmiCategory vitals = if falsy b then None else Some (getBMICategory b)).
Proof.
  assert (Hguard : forall x, gt x (ofZ 0) = true -> le x (ofZ 0) = false).
  { intros x Hx. destruct (le x (ofZ 0)) eqn:E; [| reflexivity].
    apply le_not_gt in E. unfold gt in Hx. unfold lt in E. congruence. }
  assert (Hsome : gt (weightKg vitals) (ofZ 0) = true -> gt (heightCm vitals) (ofZ 0) = true ->
     bmi vitals = Some (toFixed1 (div (weightKg vitals)
        (mul (div (heightCm vitals) (ofZ 100)) (div (heightCm vitals) (ofZ 100)))))).
  { intros Hw Hh. unfold bmi, calculateBMI. rewrite Hw, Hh, (Hguard _ Hw), (Hguard _ Hh).
    reflexivity. }
  assert (Hnone : gt (weightKg vitals) (ofZ 0) = false \/ gt (heightCm vitals) (ofZ 0) = false ->
                  bmi vitals = None).
  { unfold bmi. intros [H | H]; rewrite H; [| rewrite andb_false_r]; reflexivity. }
  assert (Hunset : forall x other, strictEq x (ofZ 0) = true ->
     gt (if gt x (ofZ 0) then other else ofZ 0) (ofZ 0) = false).
  { intros x other Hx. destruct (VitalSignsInputSpec.strictEq_zero x Hx) as [s ->].
    destruct s; reflexivity. }
  split; [| split; [| split]].
  - intros H.
    assert (Hb : bmi vitals = None).
    { apply Hnone. unfold weightKg, heightCm.
      destruct H as [H | H]; [left | right]; apply Hunset; exact H. }
    split; [exact Hb |]. unfold bmiCategory. rewrite Hb. reflexivity.
  - split; [| exact Hnone].
    destruct (gt (weightKg vitals) (ofZ 0)) eqn:Ew; [| now left].
    destruct (gt (heightCm vitals) (ofZ 0)) eqn:Eh; [| now right].
    rewrite (Hsome eq_refl eq_refl). discriminate.
  - exact Hsome.
  - intros b Hb. unfold bmiCategory. rewrite Hb. reflexivity.
Qed.

Lemma bmi_shown_witness :
  let vitals := {|
    bloodPressureSystolic := ofZ 0; bloodPressureDiastolic := ofZ 0;
    heartRate := ofZ 0; temperature := ofZ 0; temperatureUnit := "F";
    respiratoryRate := ofZ 0; oxygenSaturation := ofZ 0;
    weight := ofZ 70; weightUnit := "kg";
    height := ofZ 175; heightUnit := "cm"; painLevel := ofZ 0 |} in
  bmi vitals = Some (dec 229 1) /\ bmi (toggleHeightUnit DEFAULT_VITALS) = None.
Proof.
  intros vitals. split.
  - pose proof (bmi_shown vitals) as (_ & _ & H & _).
    rewrite H; vm_compute; reflexivity.
  - pose proof (bmi_shown (toggleHeightUnit DEFAULT_VITALS)) as (H & _).
    apply H. left. reflexivity.
Defined.

End VitalSignsInputForm.

(** ** The medication search: keyboard and displayed items *)

Module MedicationSearchSpec.
Import DataTable MedicationSearch.

Section Search.
Context {Medication : Type}.
Implicit Types (props : @Props Medication) (st : @State Medication).

(** X22: while the list is open and shows at least one item, the arrow
    keys keep the highlight on a displayed item and change nothing else;
    from a highlighted item, ArrowUp undoes ArrowDown and ArrowDown undoes
    ArrowUp. *)
Theorem arrows_stay_on_items props st :
  isOpen st = true ->
  (0 < length (displayItems props st))%nat ->
  -1 <= highlightedIndex st < Z.of_nat (length (displayItems props st)) ->
  let down := (handleKeyDown props st ArrowDown).1 in
  let up := (handleKeyDown props st ArrowUp).1 in
  0 <= highlightedIndex down < Z.of_nat (length (displayItems props st)) /\
  0 <= highlightedIndex up < Z.of_nat (length (displayItems props st)) /\
  displayItems props down = displayItems props st /\
  displayItems props up = displayItems props st /\
  (handleKeyDown props st ArrowDown).2 = None /\
  (handleKeyDown props st ArrowUp).2 = None /\
  (0 <= highlightedIndex st ->
   (handleKeyDown props down ArrowUp).1 = st /\
   (handleKeyDown props up ArrowDown).1 = st).
Proof.
  intros Hopen Hn Hh. destruct st as [q res op h]. simpl in Hopen. subst op.
  unfold handleKeyDown, displayItems, showRecent in *.
  cbn [isOpen negb highlightedIndex query results fst snd] in *.
  set (items := if Nat.eqb (String.length q) 0
                   && negb (Nat.eqb (length (recentSelections props)) 0)
                then recentSelections props
                else slice res 0 (maxResults props)) in *.
  set (n := Z.of_nat (length items)) in *.
  assert (Hn' : 0 < n) by lia.
  split; [destruct (Z.ltb_spec h (n - 1)); lia |].
  split; [destruct (Z.ltb_spec 0 h); lia |].
  split; [reflexivity |]. split; [reflexivity |].
  split; [reflexivity |]. split; [reflexivity |].
  intros H0. split; f_equal.
  - destruct (Z.ltb_spec h (n - 1)).
    + destruct (Z.ltb_spec 0 (h + 1)); lia.
    + destruct (Z.ltb_spec 0 0); lia.
  - destruct (Z.ltb_spec 0 h).
    + destruct (Z.ltb_spec (h - 1) (n - 1)); lia.
    + destruct (Z.ltb_spec (n - 1) (n - 1)); lia.
Qed.

(** X23: only Enter on the open list selects, and only the displayed
    item under the highlight; the component then closes, clears the query
    and the results and drops the highlight.  With the highlight off the
    list, Enter changes nothing. *)
Theorem enter_selects_highlighted props st (key : Key) st' (med : Medication) :
  handleKeyDown props st key = (st', Some med) ->
  key = Enter /\ isOpen st = true /\
  0 <= highlightedIndex st /\
  displayItems props st !! Z.to_nat (highlightedIndex st) = Some med /\
  st' = {| query := EmptyString; results := []; isOpen := false; highlightedIndex := -1 |}.
Proof.
  unfold handleKeyDown. destruct (isOpen st) eqn:Hopen; simpl negb; cbv iota.
  - destruct key; try discriminate.
    destruct (Z.leb_spec 0 (highlightedIndex st)); simpl andb; [| discriminate].
    destruct (_ <? _); [| discriminate].
    unfold itemAt. destruct (Z.ltb_spec (highlightedIndex st) 0); [lia |].
    destruct (displayItems props st !! Z.to_nat (highlightedIndex st)) as [m |] eqn:Hm;
      [| discriminate].
    intros Hsel. injection Hsel as <- <-. repeat split; assumption.
  - destruct key; discriminate.
Qed.

Lemma enter_without_highlight props st :
  highlightedIndex st < 0 \/ Z.of_nat (length (displayItems props st)) <= highlightedIndex st ->
  handleKeyDown props st Enter = (st, None).
Proof.
  intros H. unfold handleKeyDown. destruct (negb (isOpen st)); [reflexivity |].
  destruct (Z.leb_spec 0 (highlightedIndex st)),
           (Z.ltb_spec (highlightedIndex st) (Z.of_nat (length (displayItems props st))));
    simpl; try reflexivity. lia.
Qed.

(** X24: with a query typed, at most maxResults results are displayed,
    and they are the first results in their order; the recent selections,
    shown for an empty query, are not cut. *)
Theorem displayItems_bounded props st :
  0 <= maxResults props ->
  (showRecent props st = false ->
   Z.of_nat (length (displayItems props st)) <= maxResults props /\
   displayItems props st = take (Z.to_nat (maxResults props)) (results st)) /\
  (showRecent props st = true -> displayItems props st = recentSelections props).
Proof.
  intros Hm. unfold displayItems. split; intros ->; [| reflexivity].
  assert (Heq : slice (results st) 0 (maxResults props) =
                take (Z.to_nat (maxResults props)) (results st)).
  { unfold slice, relativeIndex.
    destruct (Z.ltb_spec 0 0); [lia |]. destruct (Z.ltb_spec (maxResults props) 0); [lia |].
    replace (Z.min 0 (Z.of_nat (length (results st)))) with 0 by lia.
    change (Z.to_nat 0) with 0%nat. rewrite drop_0, Z.sub_0_r.
    destruct (Z.min_spec (maxResults props) (Z.of_nat (length (results st))))
      as [[_ Hmin] | [Hle Hmin]]; rewrite Hmin; [reflexivity |].
    rewrite Nat2Z.id. rewrite !take_ge by lia. reflexivity. }
  split; [| exact Heq]. rewrite Heq, length_take. lia.
Qed.

End Search.

Lemma arrows_stay_on_items_witness :
  let props := {| recentSelections := ["aspirin"; "ibuprofen"]; maxResults := 10 |} in
  let st := {| query := EmptyString; results := []; isOpen := true; highlightedIndex := 1 |} in
  highlightedIndex (handleKeyDown props st ArrowDown).1 = 0 /\
  (handleKeyDown props (handleKeyDown props st ArrowDown).1 ArrowUp).1 = st.
Proof.
  intros props st.
  destruct (arrows_stay_on_items props st) as (_ & _ & _ & _ & _ & _ & Hinv);
    [reflexivity | simpl; lia | simpl; lia |].
  split; [reflexivity |]. apply Hinv. simpl. lia.
Defined.

Lemma enter_selects_highlighted_witness :
  let props := {| recentSelections := ["aspirin"; "ibuprofen"]; maxResults := 10 |} in
  let st := {| query := EmptyString; results := []; isOpen := true; highlightedIndex := 1 |} in
  displayItems props st !! 1%nat = Some "ibuprofen".
Proof.
  intros props st.
  destruct (enter_selects_highlighted props st Enter (selected st) "ibuprofen")
    as (_ & _ & _ & H & _); [reflexivity | exact H].
Defined.

Lemma displayItems_bounded_witness :
  let props := {| recentSelections := []; maxResults := 2 |} in
  let st := {| query := "a"; results := ["aspirin"; "advil"; "aleve"]; isOpen := true;
               highlightedIndex := -1 |} in
  displayItems props st = ["aspirin"; "advil"].
Proof.
  intros props st.
  destruct (displayItems_bounded props st) as ((_ & H) & _);
    [simpl; lia | reflexivity | exact H].
Defined.

End MedicationSearchSpec.

(** ** The time slot picker and the appointment card *)

Module SchedulingSpec.
Import TimeSlotPicker AppointmentCard Checks.

Section Slots.
Context {TimeSlot : Type} (hourOf : TimeSlot -> option Z).

Lemma dayPart_cases (s : TimeSlot) :
  (hourBelow (hourOf s) 12 = true /\ dayPart hourOf s = "Morning") \/
  (hourBelow (hourOf s) 12 = false /\ hourBelow (hourOf s) 17 = true /\
   dayPart hourOf s = "Afternoon") \/
  (hourBelow (hourOf s) 12 = false /\ hourBelow (hourOf s) 17 = false /\
   dayPart hourOf s = "Evening").
Proof.
  unfold dayPart. destruct (hourBelow (hourOf s) 12); [left; split; reflexivity |].
  destruct (hourBelow (hourOf s) 17); right; [left | right]; repeat split.
Qed.

(** What one slot adds to the three filters. *)
Lemma filter_dayPart_cons (name : string) (s : TimeSlot) (rest : list TimeSlot) :
  filter (fun x => dayPart hourOf x = name) (s :: rest) =
    (if bool_decide (dayPart hourOf s = name) then [s] else [])
    ++ filter (fun x => dayPart hourOf x = name) rest.
Proof.
  case_bool_decide as H.
  - rewrite filter_cons_True by exact H. reflexivity.
  - rewrite filter_cons_False by exact H. reflexivity.
Qed.

Lemma pushSlot_filters (all : list TimeSlot) (m a e : list TimeSlot) :
  fold_left (pushSlot hourOf) all (m, a, e) =
    (m ++ filter (fun s => dayPart hourOf s = "Morning") all,
     a ++ filter (fun s => dayPart hourOf s = "Afternoon") all,
     e ++ filter (fun s => dayPart hourOf s = "Evening") all).
Proof.
  revert m a e. induction all as [| s rest IH]; intros m a e.
  - simpl. rewrite !filter_nil, !app_nil_r. reflexivity.
  - cbn [fold_left]. rewrite !filter_dayPart_cons. unfold pushSlot at 2.
    destruct (dayPart_cases s) as [(H12 & Hp) | [(H12 & H17 & Hp) | (H12 & H17 & Hp)]];
      rewrite H12, ?H17, IH, Hp; simpl; rewrite <- ?app_assoc; reflexivity.
Qed.

Lemma filters_lengths (all : list TimeSlot) :
  (length (filter (fun s => dayPart hourOf s = "Morning") all)
   + length (filter (fun s => dayPart hourOf s = "Afternoon") all)
   + length (filter (fun s => dayPart hourOf s = "Evening") all) = length all)%nat.
Proof.
  induction all as [| s rest IH]; [reflexivity |].
  rewrite !filter_dayPart_cons, !length_app.
  destruct (dayPart_cases s) as [(_ & Hp) | [(_ & _ & Hp) | (_ & _ & Hp)]];
    rewrite Hp; simpl; lia.
Qed.

(** X25: the sections are the slots of the morning, of the afternoon
    and of the evening, each in the order of the input, in that order and
    without the empty ones; so every slot is shown exactly once, under the
    part of the day of its hour (Evening when the hour cannot be read). *)
Theorem categorizeSlots_partition (all : list TimeSlot) :
  (forall sec, sec ∈ categorizeSlots hourOf all ->
     slots sec <> [] /\
     slots sec = filter (fun s => dayPart hourOf s = label sec) all) /\
  (forall s, s ∈ all ->
     exists sec, sec ∈ categorizeSlots hourOf all /\ label sec = dayPart hourOf s /\
                 s ∈ slots sec) /\
  sublist (label <$> categorizeSlots hourOf all) ["Morning"; "Afternoon"; "Evening"] /\
  (length (concat (slots <$> categorizeSlots hourOf all)) = length all)%nat /\
  (forall s, hourOf s = None -> dayPart hourOf s = "Evening").
Proof.
  unfold categorizeSlots. rewrite pushSlot_filters. rewrite !app_nil_l.
  pose proof (filters_lengths all) as Hlen.
  remember (filter (fun s => dayPart hourOf s = "Morning") all) as M eqn:EM.
  remember (filter (fun s => dayPart hourOf s = "Afternoon") all) as A eqn:EA.
  remember (filter (fun s => dayPart hourOf s = "Evening") all) as E eqn:EE.
  assert (Hsingle : forall name (l : list TimeSlot) sec,
            sec ∈ (if Nat.ltb 0 (length l) then [{| label := name; slots := l |}] else []) ->
            sec = {| label := name; slots := l |} /\ l <> []).
  { intros name l sec Hsec. destruct l as [| x l]; simpl in Hsec.
    - apply elem_of_nil in Hsec. destruct Hsec.
    - apply list_elem_of_singleton in Hsec. split; [exact Hsec | discriminate]. }
  assert (Hshown : forall name (l : list TimeSlot) s, s ∈ l ->
            {| label := name; slots := l |}
              ∈ (if Nat.ltb 0 (length l) then [{| label := name; slots := l |}] else [])).
  { intros name l s Hin. destruct l as [| x l]; [apply elem_of_nil in Hin; destruct Hin |].
    simpl. apply list_elem_of_singleton. reflexivity. }
  split; [| split; [| split; [| split]]].
  - intros sec Hsec.
    apply elem_of_app in Hsec as [Hsec | Hsec];
      [| apply elem_of_app in Hsec as [Hsec | Hsec]];
      apply Hsingle in Hsec as [-> Hne]; cbn [slots label];
      (split; [exact Hne | assumption]).
  - intros s Hs.
    destruct (dayPart_cases s) as [(_ & Hp) | [(_ & _ & Hp) | (_ & _ & Hp)]]; rewrite Hp.
    + assert (Hin : s ∈ M) by (subst M; apply list_elem_of_filter; split; assumption).
      exists {| label := "Morning"; slots := M |}. split; [| split; [reflexivity | exact Hin]].
      apply elem_of_app. left. exact (Hshown _ _ _ Hin).
    + assert (Hin : s ∈ A) by (subst A; apply list_elem_of_filter; split; assumption).
      exists {| label := "Afternoon"; slots := A |}.
      split; [| split; [reflexivity | exact Hin]].
      apply elem_of_app. right. apply elem_of_app. left. exact (Hshown _ _ _ Hin).
    + assert (Hin : s ∈ E) by (subst E; apply list_elem_of_filter; split; assumption).
      exists {| label := "Evening"; slots := E |}. split; [| split; [reflexivity | exact Hin]].
      apply elem_of_app. right. apply elem_of_app. right. exact (Hshown _ _ _ Hin).
  - clear. destruct M, A, E; simpl; repeat constructor.
  - rewrite <- Hlen. clear. destruct M, A, E; simpl;
      repeat (rewrite length_app; simpl); lia.
  - intros s Hs. unfold dayPart. rewrite Hs. reflexivity.
Qed.

End Slots.

(** X26: the primary button moves an appointment one step forward along
    scheduled, checked in, in progress, completed, so that it can be
    pressed at most three times and never leads to no-show or cancelled;
    a completed or cancelled appointment offers no status change at all,
    while a no-show has no primary button but still the menu entry. *)
Theorem status_moves_forward (status : Status) (hasOnStatusChange : bool) :
  (forall next, primaryAction status hasOnStatusChange = Some next ->
     S (stepsLeft next) = stepsLeft status /\ next <> no_show /\ next <> cancelled /\
     hasOnStatusChange = true) /\
  (primaryAction status true = None <-> stepsLeft status = 0%nat) /\
  (isTerminal status = true ->
   primaryAction status hasOnStatusChange = None /\
   menuAction status hasOnStatusChange = None) /\
  (primaryAction no_show true = None /\ menuAction no_show true = Some no_show).
Proof.
  split; [| split; [| split]].
  - intros next. destruct status, hasOnStatusChange; simpl; try discriminate;
      intros H; injection H as <-; repeat split; discriminate.
  - destruct status; simpl; split; try discriminate; reflexivity.
  - destruct status; simpl; try discriminate; intros _; split; reflexivity.
  - split; reflexivity.
Qed.

Lemma categorizeSlots_partition_witness :
  let hourOf := fun h : Z => if h <? 0 then None else Some h in
  categorizeSlots hourOf [9; 14; 19; 10; -1] =
    [ {| label := "Morning"; slots := [9; 10] |};
      {| label := "Afternoon"; slots := [14] |};
      {| label := "Evening"; slots := [19; -1] |} ] /\
  exists sec, sec ∈ categorizeSlots hourOf [9; 14; 19; 10; -1] /\
              label sec = "Evening" /\ -1 ∈ slots sec.
Proof.
  intros hourOf. split; [reflexivity |].
  pose proof (categorizeSlots_partition hourOf [9; 14; 19; 10; -1]) as (_ & H & _).
  apply (H (-1)). do 4 (apply elem_of_cons; right). apply elem_of_cons. now left.
Defined.

Lemma status_moves_forward_witness :
  S (stepsLeft checked_in) = stepsLeft scheduled /\
  primaryAction cancelled true = None.
Proof.
  pose proof (status_moves_forward scheduled true) as (H & _).
  pose proof (status_moves_forward cancelled true) as (_ & _ & Hterm & _).
  split; [apply (H checked_in); reflexivity | apply Hterm; reflexivity].
Defined.

End SchedulingSpec.
